(** * Collision and boundary response of the kart simulation

    A shallow embedding of [src/utils/collisionDetection.js] (both the
    ground-only variant and the ground+wall variant of the file) and of
    the per-wheel ground resolver [getGroundPosition] exercised by
    [src/models/__tests__/Kart.test.js].

    JavaScript numbers are kept abstract behind the interface [JSNumber];
    the code is written once against that interface and run on two
    instances: IEEE binary64 ([float], what the engine computes) and the
    real numbers ([R], the arithmetic the geometry is meant in). What is
    proved for every instance holds of the program as it runs; what is
    proved over [R] alone says what exact arithmetic would give. *)

From Stdlib Require Import ZArith List String Bool.
From Stdlib Require Import Reals Lra.
From Stdlib Require Import PrimFloat Uint63.
From Stdlib Require FloatAxioms.
Import ListNotations.

Set Implicit Arguments.
Set Warnings "-inexact-float,-register-all".

(* ================================================================== *)
(** ** Numbers *)

(** The operations on numbers that the sources use. [truthy] is
    JavaScript's ToBoolean on a number (as in [this.length() || 1]). *)
Class JSNumber (T : Type) : Type := {
  ofZ    : Z -> T;
  add    : T -> T -> T;
  sub    : T -> T -> T;
  mul    : T -> T -> T;
  div    : T -> T -> T;
  opp    : T -> T;
  sqrt   : T -> T;
  abs    : T -> T;
  ltb    : T -> T -> bool;
  leb    : T -> T -> bool;
  truthy : T -> bool
}.

(** [Math.sin], [Math.cos] and [Math.PI], used by [applyAxisAngle]. *)
Class JSTrig (T : Type) : Type := {
  sin : T -> T;
  cos : T -> T;
  PI  : T
}.

Declare Scope js_scope.
Delimit Scope js_scope with js.
Infix "+" := add : js_scope.
Infix "-" := sub : js_scope.
Infix "*" := mul : js_scope.
Infix "/" := div : js_scope.
Notation "- x" := (opp x) : js_scope.
Infix "<?" := ltb : js_scope.
Infix "<=?" := leb : js_scope.

(** A decimal literal [n/d] of the source text, e.g. [0.5] is [dec 5 10]. *)
Definition dec {T} `{JSNumber T} (n d : Z) : T := (ofZ n / ofZ d)%js.

Module FloatNumber.

Definition float_ofZ (z : Z) : float :=
  match z with
  | Z0 => PrimFloat.of_uint63 0%uint63
  | Zpos _ => PrimFloat.of_uint63 (Uint63.of_Z z)
  | Zneg p => PrimFloat.opp (PrimFloat.of_uint63 (Uint63.of_Z (Zpos p)))
  end.

Definition is_nan (x : float) : bool := negb (PrimFloat.eqb x x).

(** ToBoolean: [+0], [-0] and [NaN] are falsy. *)
Definition float_truthy (x : float) : bool :=
  negb (PrimFloat.eqb x PrimFloat.zero || is_nan x).

#[export] Instance float_JSNumber : JSNumber float := {|
  ofZ := float_ofZ;
  add := PrimFloat.add;
  sub := PrimFloat.sub;
  mul := PrimFloat.mul;
  div := PrimFloat.div;
  opp := PrimFloat.opp;
  sqrt := PrimFloat.sqrt;
  abs := PrimFloat.abs;
  ltb := PrimFloat.ltb;
  leb := PrimFloat.leb;
  truthy := float_truthy
|}.

End FloatNumber.

Module RealNumber.

Definition R_ltb (x y : R) : bool := if Rlt_dec x y then true else false.
Definition R_leb (x y : R) : bool := if Rle_dec x y then true else false.
Definition R_truthy (x : R) : bool := if Req_dec_T x 0%R then false else true.

#[export] Instance R_JSNumber : JSNumber R := {|
  ofZ := IZR;
  add := Rplus;
  sub := Rminus;
  mul := Rmult;
  div := Rdiv;
  opp := Ropp;
  sqrt := R_sqrt.sqrt;
  abs := Rabs;
  ltb := R_ltb;
  leb := R_leb;
  truthy := R_truthy
|}.

#[export] Instance R_JSTrig : JSTrig R := {|
  sin := Rtrigo_def.sin;
  cos := Rtrigo_def.cos;
  PI := Rtrigo1.PI
|}.

End RealNumber.

Export FloatNumber RealNumber.

(* ================================================================== *)
(** ** three.js values: vectors, scene objects, ray intersections *)

Record Vector3 (T : Type) : Type := mkVector3 { x : T; y : T; z : T }.
Arguments mkVector3 {T} _ _ _.

Section Vector3Methods.
Context {T : Type} `{JSNumber T}.

Local Open Scope js_scope.

(** [a || b] on numbers. *)
Definition js_or (a b : T) : T := if truthy a then a else b.

Definition length (v : Vector3 T) : T :=
  sqrt (x v * x v + y v * y v + z v * z v).

Definition multiplyScalar (v : Vector3 T) (s : T) : Vector3 T :=
  mkVector3 (x v * s) (y v * s) (z v * s).

Definition divideScalar (v : Vector3 T) (s : T) : Vector3 T :=
  multiplyScalar v (ofZ 1 / s).

Definition normalize (v : Vector3 T) : Vector3 T :=
  divideScalar v (js_or (length v) (ofZ 1)).

Definition vadd (v w : Vector3 T) : Vector3 T :=
  mkVector3 (x v + x w) (y v + y w) (z v + z w).

Definition vsub (v w : Vector3 T) : Vector3 T :=
  mkVector3 (x v - x w) (y v - y w) (z v - z w).

Definition negate (v : Vector3 T) : Vector3 T :=
  mkVector3 (- x v) (- y v) (- z v).

Definition dot (v w : Vector3 T) : T :=
  x v * x w + y v * y w + z v * z w.

(** [v.reflect(normal)]: [v.sub(normal * (2 * v.dot(normal)))]. *)
Definition reflect (v normal : Vector3 T) : Vector3 T :=
  vsub v (multiplyScalar normal (ofZ 2 * dot v normal)).

(** [o.y += d] *)
Definition addY (o : Vector3 T) (d : T) : Vector3 T :=
  mkVector3 (x o) (y o + d) (z o).

End Vector3Methods.

Section Vector3Rotation.
Context {T : Type} `{JSNumber T} `{JSTrig T}.

Local Open Scope js_scope.

Record Quaternion : Type := mkQuaternion { qx : T; qy : T; qz : T; qw : T }.

Definition setFromAxisAngle (axis : Vector3 T) (angle : T) : Quaternion :=
  let halfAngle := angle / ofZ 2 in
  let s := sin halfAngle in
  mkQuaternion (x axis * s) (y axis * s) (z axis * s) (cos halfAngle).

Definition applyQuaternion (v : Vector3 T) (q : Quaternion) : Vector3 T :=
  let tx := ofZ 2 * (qy q * z v - qz q * y v) in
  let ty := ofZ 2 * (qz q * x v - qx q * z v) in
  let tz := ofZ 2 * (qx q * y v - qy q * x v) in
  mkVector3 (x v + qw q * tx + qy q * tz - qz q * ty)
            (y v + qw q * ty + qz q * tx - qx q * tz)
            (z v + qw q * tz + qx q * ty - qy q * tx).

Definition applyAxisAngle (v axis : Vector3 T) (angle : T) : Vector3 T :=
  applyQuaternion v (setFromAxisAngle axis angle).

End Vector3Rotation.

(** [s.includes(sub)]: substring containment, case-sensitive. *)
Fixpoint includes (s sub : string) : bool :=
  String.prefix sub s
  || match s with
     | EmptyString => false
     | String _ s' => includes s' sub
     end.

(** ToBoolean on a string: only the empty string is falsy. *)
Definition str_truthy (s : string) : bool := negb (String.eqb s "").

(** A node of the scene graph; a scene is the root node. *)
Inductive Object3D : Type :=
  mkObject3D (name : string) (children : list Object3D).

Definition name (o : Object3D) : string :=
  match o with mkObject3D n _ => n end.

Definition children (o : Object3D) : list Object3D :=
  match o with mkObject3D _ c => c end.

(** The objects a recursive query visits: the given ones and everything
    below them, in traversal order. *)
Fixpoint descendant (o : Object3D) : list Object3D :=
  match o with
  | mkObject3D _ cs =>
      o :: (fix below (l : list Object3D) : list Object3D :=
              match l with
              | [] => []
              | c :: l' => descendant c ++ below l'
              end) cs
  end.

Definition descendants (objs : list Object3D) : list Object3D :=
  flat_map descendant objs.

Record Face (T : Type) : Type := mkFace { face_normal : Vector3 T }.

(** One entry of the array [raycaster.intersectObjects] returns. *)
Record Intersection (T : Type) : Type := mkIntersection {
  hit_distance : T;
  hit_point : Vector3 T;
  hit_face : option (Face T);
  hit_object : Object3D
}.

(** The fields of a [Raycaster] the sources read or write, and [near],
    which they leave alone. *)
Record Raycaster (T : Type) : Type := mkRaycaster {
  ray_origin : Vector3 T;
  ray_direction : Vector3 T;
  near : T;
  far : T;
  firstHitOnly : bool
}.

Definition Raycaster_set {T} (rc : Raycaster T) (o d : Vector3 T) : Raycaster T :=
  mkRaycaster o d (near rc) (far rc) (firstHitOnly rc).

Definition set_far {T} (rc : Raycaster T) (f : T) : Raycaster T :=
  mkRaycaster (ray_origin rc) (ray_direction rc) (near rc) f (firstHitOnly rc).

Definition set_firstHitOnly {T} (rc : Raycaster T) (b : bool) : Raycaster T :=
  mkRaycaster (ray_origin rc) (ray_direction rc) (near rc) (far rc) b.

(** The spatial query of three.js (with three-mesh-bvh's [firstHitOnly]):
    the intersections of the raycaster's ray with the given objects,
    nearest first. It is supplied from outside. *)
Definition IntersectObjects (T : Type) : Type :=
  Raycaster T -> list Object3D -> bool -> list (Intersection T).

(* ================================================================== *)
(** ** State threading *)

(** Code that reads and updates module-level objects is a function from
    the state before to a result and the state after. *)
Definition State (S A : Type) : Type := S -> A * S.

Definition ret {S A} (a : A) : State S A := fun s => (a, s).

Definition bind {S A B} (m : State S A) (k : A -> State S B) : State S B :=
  fun s => let (a, s') := m s in k a s'.

Definition get {S} : State S S := fun s => (s, s).

Definition modify {S} (f : S -> S) : State S unit := fun s => (tt, f s).

Notation "x <- m ;; k" := (bind m (fun x => k))
  (at level 61, m at next level, right associativity).
Notation "m ;; k" := (bind m (fun _ => k))
  (at level 61, right associativity).

(** [l.forEach((a, index) => body)], the body updating an accumulator
    that stands for the arrays it pushes to. *)
Fixpoint forEach {S A B} (l : list A) (index : nat)
    (body : A -> nat -> B -> State S B) (acc : B) : State S B :=
  match l with
  | [] => ret acc
  | a :: l' => acc' <- body a index acc ;; forEach l' (Datatypes.S index) body acc'
  end.

(** A parameter with a default value: the default applies when the
    caller leaves it out. *)
Definition default_arg {A} (arg : option A) (d : A) : A :=
  match arg with Some a => a | None => d end.

(** The module-level objects of [collisionDetection.js]:
    [const raycaster], [const direction], [const origin]. *)
Record ModuleState (T : Type) : Type := mkModuleState {
  raycaster : Raycaster T;
  direction : Vector3 T;
  origin : Vector3 T
}.

Section ModuleStateOps.
Context {T : Type}.

Definition with_raycaster (f : Raycaster T -> Raycaster T) : State (ModuleState T) unit :=
  modify (fun s => mkModuleState (f (raycaster s)) (direction s) (origin s)).

Definition with_direction (f : Vector3 T -> Vector3 T) : State (ModuleState T) unit :=
  modify (fun s => mkModuleState (raycaster s) (f (direction s)) (origin s)).

Definition with_origin (f : Vector3 T -> Vector3 T) : State (ModuleState T) unit :=
  modify (fun s => mkModuleState (raycaster s) (direction s) (f (origin s))).

Definition read_direction : State (ModuleState T) (Vector3 T) :=
  s <- get ;; ret (direction s).

Definition read_origin : State (ModuleState T) (Vector3 T) :=
  s <- get ;; ret (origin s).

(** [raycaster.intersectObjects(objects, recursive)] *)
Definition query (intersectObjects : IntersectObjects T)
    (objects : list Object3D) (recursive : bool)
  : State (ModuleState T) (list (Intersection T)) :=
  s <- get ;; ret (intersectObjects (raycaster s) objects recursive).

End ModuleStateOps.

(** What [checkBoundaryCollision] returns when it is not [null]. *)
Record HitRecord (T : Type) : Type := mkHitRecord {
  hit : bool;
  point : Vector3 T;
  normal : Vector3 T;
  distance : T;
  type : string
}.

(** [{...collision, directionIndex: index}] *)
Record DirectedHit (T : Type) : Type := mkDirectedHit {
  collision : HitRecord T;
  directionIndex : nat
}.

Module BounceResponse.
Record t (T : Type) : Type := make {
  velocity : Vector3 T;
  force : T;
  direction : Vector3 T
}.
End BounceResponse.

Record Boundary : Type := mkBoundary {
  boundary_mesh : Object3D;
  boundary_type : string;
  boundary_name : string
}.

(* ================================================================== *)
(** ** [collisionDetection.js], ground+wall variant *)

Module Unified.

Section Code.
Context {T : Type} `{JSNumber T}.
Variable intersectObjects : IntersectObjects T.

Local Open Scope string_scope.
Local Open Scope js_scope.

(** The filter predicate
    [name && (name.includes('ground') || name.includes('wall')
              || name.includes('barrier') || name.includes('block'))]. *)
Definition isCollisionName (n : string) : bool :=
  str_truthy n
  && (includes n "ground" || includes n "wall"
      || includes n "barrier" || includes n "block").

Definition isCollisionHit (h : Intersection T) : bool :=
  isCollisionName (name (hit_object h)).

Definition checkBoundaryCollision (position velocity : Vector3 T)
    (scene : Object3D) (lookAheadDistance : option T)
  : State (ModuleState T) (option (HitRecord T)) :=
  let lookAheadDistance := default_arg lookAheadDistance (ofZ 2) in
  let speed := length velocity in
  if speed <? dec 1 10 then ret None else
  with_direction (fun _ => normalize velocity) ;;
  with_origin (fun _ => position) ;;
  with_origin (fun o => addY o (dec 5 10)) ;;
  o <- read_origin ;;
  d <- read_direction ;;
  with_raycaster (fun rc => Raycaster_set rc o d) ;;
  with_raycaster (fun rc => set_far rc lookAheadDistance) ;;
  with_raycaster (fun rc => set_firstHitOnly rc true) ;;
  intersects <- query intersectObjects (children scene) true ;;
  let collisionIntersects := filter isCollisionHit intersects in
  match collisionIntersects with
  | hit :: _ =>
      d <- read_direction ;;
      ret (Some (mkHitRecord true
                   (hit_point hit)
                   match hit_face hit with
                   | Some f => face_normal f
                   | None => negate d
                   end
                   (hit_distance hit)
                   (if includes (name (hit_object hit)) "ground"
                    then "track_surface" else "wall")))
  | [] =>
      let edgeCheckDistance := dec 15 10 in
      let downDirection := mkVector3 (ofZ 0) (ofZ (-1)) (ofZ 0) in
      d <- read_direction ;;
      let edgeCheckOrigin :=
        addY (vadd position (multiplyScalar d edgeCheckDistance)) (ofZ 2) in
      with_raycaster (fun rc => Raycaster_set rc edgeCheckOrigin downDirection) ;;
      with_raycaster (fun rc => set_far rc (ofZ 5)) ;;
      edgeIntersects <- query intersectObjects (children scene) true ;;
      let collisionAhead := filter isCollisionHit edgeIntersects in
      match collisionAhead with
      | [] =>
          d <- read_direction ;;
          let hitPoint := vadd position (multiplyScalar d (dec 5 10)) in
          let hitNormal := negate d in
          ret (Some (mkHitRecord true hitPoint hitNormal (dec 5 10) "track_edge"))
      | _ :: _ => ret None
      end
  end.

Definition calculateBounceResponse (hitPoint hitNormal velocity : Vector3 T)
    (bounceStrength : option T) : BounceResponse.t T :=
  let bounceStrength := default_arg bounceStrength (dec 8 10) in
  let reflectedVelocity := reflect velocity hitNormal in
  let reflectedVelocity := multiplyScalar reflectedVelocity bounceStrength in
  let minBounceSpeed := ofZ 2 in
  let reflectedVelocity :=
    if length reflectedVelocity <? minBounceSpeed
    then multiplyScalar (normalize reflectedVelocity) minBounceSpeed
    else reflectedVelocity in
  BounceResponse.make reflectedVelocity
                      (length reflectedVelocity)
                      (normalize reflectedVelocity).

Definition getTrackBoundaries (scene : Object3D) : list Boundary :=
  fst (forEach (children scene) 0
         (fun child _ boundaries =>
            if isCollisionName (name child)
            then ret (boundaries ++
                      [mkBoundary child
                         (if includes (name child) "ground" then "ground" else "wall")
                         (name child)])%list
            else ret boundaries)
         [] tt).

Definition isPositionOnTrack (position : Vector3 T) (scene : Object3D)
    (maxDistance : option T) : State (ModuleState T) bool :=
  let maxDistance := default_arg maxDistance (ofZ 3) in
  let downDirection := mkVector3 (ofZ 0) (ofZ (-1)) (ofZ 0) in
  let checkOrigin := addY position (ofZ 2) in
  with_raycaster (fun rc => Raycaster_set rc checkOrigin downDirection) ;;
  with_raycaster (fun rc => set_far rc (maxDistance + ofZ 2)) ;;
  with_raycaster (fun rc => set_firstHitOnly rc true) ;;
  intersects <- query intersectObjects (children scene) true ;;
  let collisionHits := filter isCollisionHit intersects in
  match collisionHits with
  | hit :: _ =>
      let distanceToGround := abs (y position - y (hit_point hit)) in
      ret (distanceToGround <=? maxDistance)
  | [] => ret false
  end.

End Code.

Section Multi.
Context {T : Type} `{JSNumber T} `{JSTrig T}.
Variable intersectObjects : IntersectObjects T.

Local Open Scope js_scope.

(** The three headings that are probed, before they are scaled. *)
Definition directions (velocity : Vector3 T) : list (Vector3 T) :=
  [ normalize velocity;
    applyAxisAngle (normalize velocity)
      (mkVector3 (ofZ 0) (ofZ 1) (ofZ 0)) (PI / ofZ 4);
    applyAxisAngle (normalize velocity)
      (mkVector3 (ofZ 0) (ofZ 1) (ofZ 0)) (- PI / ofZ 4) ].

Definition checkMultiDirectionalCollision (position velocity : Vector3 T)
    (scene : Object3D) : State (ModuleState T) (option (DirectedHit T)) :=
  collisions <-
    forEach (directions velocity) 0
      (fun dir index collisions =>
         collision <- checkBoundaryCollision intersectObjects position
                        (multiplyScalar dir (length velocity)) scene None ;;
         match collision with
         | Some c => ret (collisions ++ [mkDirectedHit c index])
         | None => ret collisions
         end)
      [] ;;
  ret (match collisions with
       | c :: _ => Some c
       | [] => None
       end).

End Multi.

End Unified.

(* ================================================================== *)
(** ** [collisionDetection.js], ground-only variant *)

Module GroundOnly.

Section Code.
Context {T : Type} `{JSNumber T}.
Variable intersectObjects : IntersectObjects T.

Local Open Scope string_scope.
Local Open Scope js_scope.

(** The filter predicate [name && name.includes('ground')]. *)
Definition isGroundName (n : string) : bool :=
  str_truthy n && includes n "ground".

Definition isGroundHit (h : Intersection T) : bool :=
  isGroundName (name (hit_object h)).

Definition checkBoundaryCollision (position velocity : Vector3 T)
    (scene : Object3D) (lookAheadDistance : option T)
  : State (ModuleState T) (option (HitRecord T)) :=
  let lookAheadDistance := default_arg lookAheadDistance (ofZ 2) in
  let speed := length velocity in
  if speed <? dec 1 10 then ret None else
  with_direction (fun _ => normalize velocity) ;;
  with_origin (fun _ => position) ;;
  with_origin (fun o => addY o (dec 5 10)) ;;
  o <- read_origin ;;
  d <- read_direction ;;
  with_raycaster (fun rc => Raycaster_set rc o d) ;;
  with_raycaster (fun rc => set_far rc lookAheadDistance) ;;
  with_raycaster (fun rc => set_firstHitOnly rc true) ;;
  intersects <- query intersectObjects (children scene) true ;;
  let groundIntersects := filter isGroundHit intersects in
  match groundIntersects with
  | [] =>
      let edgeCheckDistance := dec 15 10 in
      let downDirection := mkVector3 (ofZ 0) (ofZ (-1)) (ofZ 0) in
      d <- read_direction ;;
      let edgeCheckOrigin :=
        addY (vadd position (multiplyScalar d edgeCheckDistance)) (ofZ 2) in
      with_raycaster (fun rc => Raycaster_set rc edgeCheckOrigin downDirection) ;;
      with_raycaster (fun rc => set_far rc (ofZ 5)) ;;
      edgeIntersects <- query intersectObjects (children scene) true ;;
      let groundAhead := filter isGroundHit edgeIntersects in
      match groundAhead with
      | [] =>
          d <- read_direction ;;
          let hitPoint := vadd position (multiplyScalar d (dec 5 10)) in
          let hitNormal := negate d in
          ret (Some (mkHitRecord true hitPoint hitNormal (dec 5 10) "track_edge"))
      | _ :: _ => ret None
      end
  | _ :: _ => ret None
  end.

Definition getTrackBoundaries (scene : Object3D) : list Boundary :=
  fst (forEach (children scene) 0
         (fun child _ boundaries =>
            if isGroundName (name child)
            then ret (boundaries ++ [mkBoundary child "ground" (name child)])%list
            else ret boundaries)
         [] tt).

Definition isPositionOnTrack (position : Vector3 T) (scene : Object3D)
    (maxDistance : option T) : State (ModuleState T) bool :=
  let maxDistance := default_arg maxDistance (ofZ 3) in
  let downDirection := mkVector3 (ofZ 0) (ofZ (-1)) (ofZ 0) in
  let checkOrigin := addY position (ofZ 2) in
  with_raycaster (fun rc => Raycaster_set rc checkOrigin downDirection) ;;
  with_raycaster (fun rc => set_far rc (maxDistance + ofZ 2)) ;;
  with_raycaster (fun rc => set_firstHitOnly rc true) ;;
  intersects <- query intersectObjects (children scene) true ;;
  let groundHits := filter isGroundHit intersects in
  match groundHits with
  | hit :: _ =>
      let distanceToGround := abs (y position - y (hit_point hit)) in
      ret (distanceToGround <=? maxDistance)
  | [] => ret false
  end.

End Code.

Section Multi.
Context {T : Type} `{JSNumber T} `{JSTrig T}.
Variable intersectObjects : IntersectObjects T.

Local Open Scope js_scope.

Definition directions (velocity : Vector3 T) : list (Vector3 T) :=
  [ normalize velocity;
    applyAxisAngle (normalize velocity)
      (mkVector3 (ofZ 0) (ofZ 1) (ofZ 0)) (PI / ofZ 4);
    applyAxisAngle (normalize velocity)
      (mkVector3 (ofZ 0) (ofZ 1) (ofZ 0)) (- PI / ofZ 4) ].

Definition checkMultiDirectionalCollision (position velocity : Vector3 T)
    (scene : Object3D) : State (ModuleState T) (option (DirectedHit T)) :=
  collisions <-
    forEach (directions velocity) 0
      (fun dir index collisions =>
         collision <- checkBoundaryCollision intersectObjects position
                        (multiplyScalar dir (length velocity)) scene None ;;
         match collision with
         | Some c => ret (collisions ++ [mkDirectedHit c index])
         | None => ret collisions
         end)
      [] ;;
  ret (match collisions with
       | c :: _ => Some c
       | [] => None
       end).

End Multi.

End GroundOnly.

(* ================================================================== *)
(** ** The per-wheel ground resolver of [Kart.test.js] *)

Module Kart.

(** [wheel.current]: the vertical position and the dirt flag. *)
Record Wheel (T : Type) : Type := mkWheel {
  position_y : T;
  isOnDirt : bool
}.

(** [wheelBase.current], known by the world position it reports. *)
Record WheelBase (T : Type) : Type := mkWheelBase {
  getWorldPosition : Vector3 T
}.

(** What [getGroundPosition] reads and writes: the raycaster of the
    fixture and the wheel it is given. [raycaster.set] and
    [getWorldPosition] are given the meaning they have in three.js; the
    fixture of the test replaces both by recording stubs, under which
    the ray is left as it was. The prepared intersections of the
    fixture do not depend on the ray, so the wheel and the returned
    value are the same either way. *)
Record Fixture (T : Type) : Type := mkFixture {
  mockRaycaster : Raycaster T;
  wheel : Wheel T
}.

Section Code.
Context {T : Type} `{JSNumber T}.
Variable intersectObjects : IntersectObjects T.
Variable mockScene : Object3D.

Local Open Scope string_scope.
Local Open Scope js_scope.

Definition with_mockRaycaster (f : Raycaster T -> Raycaster T)
  : State (Fixture T) unit :=
  modify (fun s => mkFixture (f (mockRaycaster s)) (wheel s)).

Definition set_position_y (v : T) : State (Fixture T) unit :=
  modify (fun s => mkFixture (mockRaycaster s)
                             (mkWheel v (isOnDirt (wheel s)))).

Definition set_isOnDirt (b : bool) : State (Fixture T) unit :=
  modify (fun s => mkFixture (mockRaycaster s)
                             (mkWheel (position_y (wheel s)) b)).

Definition getGroundPosition (wheelBase : WheelBase T)
    (offset : option T) (wheelIndex : nat) (delta : T)
  : State (Fixture T) T :=
  let origin := getWorldPosition wheelBase in
  let direction := mkVector3 (ofZ 0) (ofZ (-1)) (ofZ 0) in
  with_mockRaycaster (fun rc => Raycaster_set rc origin direction) ;;
  with_mockRaycaster (fun rc => set_far rc (ofZ 3)) ;;
  with_mockRaycaster (fun rc => set_firstHitOnly rc true) ;;
  s <- get ;;
  let intersects := intersectObjects (mockRaycaster s) (children mockScene) true in
  match intersects with
  | hit :: _ =>
      let safeY := y (hit_point hit) + dec 3 10 in
      set_position_y safeY ;;
      (if String.eqb (name (hit_object hit)) "ground dirt"
          && (y (hit_point hit) <? dec 5 10)
       then set_isOnDirt true
       else set_isOnDirt false) ;;
      ret safeY
  | [] =>
      set_isOnDirt false ;;
      s <- get ;;
      ret (position_y (wheel s))
  end.

End Code.

End Kart.

(* ================================================================== *)
(** ** Fixtures: concrete scenes and spatial queries to run the code on *)

Module Fixtures.

(** A query under which the ray meets every object it is asked about
    (all objects below the given ones when [recursive]), each at the far
    end of the ray. *)
Definition hitEverything {T} `{JSNumber T} : IntersectObjects T :=
  fun rc objects recursive =>
    map (fun o =>
           mkIntersection (far rc)
             (vadd (ray_origin rc) (multiplyScalar (ray_direction rc) (far rc)))
             None o)
        (if recursive then descendants objects else objects).

(** A query that reports the same prepared intersections for every ray,
    as [mockReturnValue] does in the tests. *)
Definition mockReturnValue {T} (hits : list (Intersection T)) : IntersectObjects T :=
  fun _ _ _ => hits.

Definition mesh (n : string) : Object3D := mkObject3D n [].

Definition emptyScene : Object3D := mkObject3D "" [].

(** The scene of the collision tests. *)
Definition mockScene : Object3D :=
  mkObject3D ""
    [ mesh "ground"; mesh "ground dirt"; mesh "wall"; mesh "barrier";
      mesh "block wall"; mesh "not collision" ].

Definition sceneryOnly : Object3D :=
  mkObject3D "" [ mkObject3D "trees" [ mesh "tree 1"; mesh "tree 2" ]; mesh "sky" ].

Definition wallOnly : Object3D := mkObject3D "" [ mesh "wall" ].

(** [new Raycaster()] and the two scratch vectors at module load. *)
Definition initialState : ModuleState float :=
  mkModuleState
    (mkRaycaster (mkVector3 0 0 0) (mkVector3 0 0 (-1)) 0 infinity false)%float
    (mkVector3 0 0 0)%float
    (mkVector3 0 0 0)%float.

Definition initialFixture (wheelY : float) : Kart.Fixture float :=
  Kart.mkFixture
    (mkRaycaster (mkVector3 0 0 0) (mkVector3 0 0 (-1)) 0 3 true)%float
    (Kart.mkWheel wheelY false).

Definition mockWheelBase : Kart.WheelBase float :=
  Kart.mkWheelBase (mkVector3 0 5 0)%float.

Definition mockHit (pointY : float) (n : string) : Intersection float :=
  mkIntersection (5 - pointY)%float (mkVector3 0 pointY 0)%float None (mesh n).

(** [Math.PI], and [Math.sin] and [Math.cos] at the two half-angles
    [PI / 8] and [- PI / 8] that the prober asks for. *)
Definition trigTable : JSTrig float := {|
  sin := fun a =>
    if PrimFloat.eqb a 0.39269908169872414 then 0.3826834323650898
    else if PrimFloat.eqb a (-0.39269908169872414) then (-0.3826834323650898)
    else nan;
  cos := fun a =>
    if PrimFloat.eqb (PrimFloat.abs a) 0.39269908169872414
    then 0.9238795325112867 else nan;
  PI := 3.141592653589793
|}%float.

(** A track with ground beneath and a wall on the side of negative [x]:
    rays pointing down meet the ground, rays heading towards negative
    [x] meet the wall, the others meet nothing. *)
Definition wallOnTheLeft : IntersectObjects float :=
  fun rc _ _ =>
    if PrimFloat.ltb (y (ray_direction rc)) (-0.5)%float
    then [mkIntersection 2%float (addY (ray_origin rc) (-2)%float) None
            (mesh "ground")]
    else if PrimFloat.ltb (x (ray_direction rc)) (-0.5)%float
    then [mkIntersection 1%float (vadd (ray_origin rc) (ray_direction rc))
            (Some (mkFace (mkVector3 1 0 0)%float)) (mesh "wall")]
    else [].

End Fixtures.

(* ================================================================== *)
(** ** Vocabulary of the properties *)

Section Vocabulary.
Context {T : Type} `{JSNumber T}.

Local Open Scope string_scope.
Local Open Scope js_scope.

(** The ray of the forward probe: from [position + (0, 0.5, 0)] along
    [normalize(velocity)], as far as [lookAhead], first hit only. *)
Definition forwardRay (nearPlane : T) (position velocity : Vector3 T)
    (lookAhead : T) : Raycaster T :=
  mkRaycaster (addY position (dec 5 10)) (normalize velocity)
              nearPlane lookAhead true.

(** The ray of the edge probe: straight down from
    [position + direction * 1.5 + (0, 2, 0)], as far as [5]. *)
Definition edgeRay (nearPlane : T) (position velocity : Vector3 T) : Raycaster T :=
  mkRaycaster
    (addY (vadd position (multiplyScalar (normalize velocity) (dec 15 10))) (ofZ 2))
    (mkVector3 (ofZ 0) (ofZ (-1)) (ofZ 0))
    nearPlane (ofZ 5) true.

(** The ray of the containment check: straight down from
    [position + (0, 2, 0)], as far as [maxDistance + 2]. *)
Definition downRay (nearPlane : T) (position : Vector3 T) (maxDistance : T)
  : Raycaster T :=
  mkRaycaster (addY position (ofZ 2))
              (mkVector3 (ofZ 0) (ofZ (-1)) (ofZ 0))
              nearPlane (maxDistance + ofZ 2) true.

(** The record synthesized when nothing is found ahead or below. *)
Definition trackEdgeRecord (position velocity : Vector3 T) : HitRecord T :=
  mkHitRecord true
    (vadd position (multiplyScalar (normalize velocity) (dec 5 10)))
    (negate (normalize velocity))
    (dec 5 10)
    "track_edge".

(** The record reported for a measured boundary hit. *)
Definition boundaryRecord (velocity : Vector3 T) (h : Intersection T) : HitRecord T :=
  mkHitRecord true
    (hit_point h)
    match hit_face h with
    | Some f => face_normal f
    | None => negate (normalize velocity)
    end
    (hit_distance h)
    (if includes (name (hit_object h)) "ground" then "track_surface" else "wall").

(** The ray of the resolver: straight down from the wheel mount's world
    position, as far as 3, first hit only. *)
Definition wheelRay (nearPlane : T) (wheelBase : Kart.WheelBase T) : Raycaster T :=
  mkRaycaster (Kart.getWorldPosition wheelBase)
              (mkVector3 (ofZ 0) (ofZ (-1)) (ofZ 0))
              nearPlane (ofZ 3) true.

End Vocabulary.

Local Open Scope string_scope.

(** A name that contains one of the boundary substrings. *)
Definition matchesBoundarySubstring (n : string) : bool :=
  includes n "ground" || includes n "wall"
  || includes n "barrier" || includes n "block".

(** The contract of the spatial query that ties it to the scene: what a
    recursive query over the scene's children reports as hit is one of
    the objects below the scene. *)
Definition hitsOnSceneObjects {T} (intersectObjects : IntersectObjects T)
    (scene : Object3D) : Prop :=
  forall rc h,
    In h (intersectObjects rc (children scene) true) ->
    In (hit_object h) (descendants (children scene)).

(** No object of the scene carries a boundary name. *)
Definition noBoundaryObjects (scene : Object3D) : Prop :=
  forall o, In o (descendants (children scene)) ->
            matchesBoundarySubstring (name o) = false.

Section Probes.
Context {T : Type} `{JSNumber T}.
Variable io : IntersectObjects T.
Variables position velocity : Vector3 T.
Variable scene : Object3D.

Local Open Scope list_scope.

(** The body of the [forEach] in [checkMultiDirectionalCollision]. *)
Definition probeAndCollect (dir : Vector3 T) (index : nat)
    (collisions : list (DirectedHit T))
  : State (ModuleState T) (list (DirectedHit T)) :=
  collision <- Unified.checkBoundaryCollision io position
                 (multiplyScalar dir (length velocity)) scene None ;;
  match collision with
  | Some c => ret (collisions ++ [mkDirectedHit c index])
  | None => ret collisions
  end.

(** The hits the probes of the given directions report when each of
    them is run from the state [s]. *)
Fixpoint probesFrom (s : ModuleState T) (dirs : list (Vector3 T)) (index : nat)
  : list (DirectedHit T) :=
  match dirs with
  | [] => []
  | dir :: dirs' =>
      match fst (Unified.checkBoundaryCollision io position
                   (multiplyScalar dir (length velocity)) scene None s) with
      | Some c => [mkDirectedHit c index]
      | None => []
      end ++ probesFrom s dirs' (S index)
  end.

End Probes.

(** A module state over the reals, to run the code on. *)
Definition realState : ModuleState R :=
  mkModuleState
    (mkRaycaster (mkVector3 0 0 0) (mkVector3 0 0 (-1)) 0 1 false)%R
    (mkVector3 0 0 0)%R
    (mkVector3 0 0 0)%R.

(** The substrings that make a name a boundary name. *)
Definition boundaryKeywords : list string :=
  ["ground"; "wall"; "barrier"; "block"].

(** A scene all of whose objects are direct children of the root. *)
Definition flatScene (scene : Object3D) : Prop :=
  forall child, In child (children scene) -> children child = [].

(** The entry [getTrackBoundaries] of the ground+wall variant makes of
    a child. *)
Definition boundaryOf (child : Object3D) : Boundary :=
  mkBoundary child
    (if includes (name child) "ground" then "ground" else "wall")
    (name child).

(* ================================================================== *)
(** * Properties *)

Example dec_float_half : dec 5 10 = 0.5%float.
Proof. reflexivity. Qed.

Example dec_float_tenth : dec 1 10 = 0.1%float.
Proof. reflexivity. Qed.

Example dec_float_three_tenths : dec 3 10 = 0.3%float.
Proof. reflexivity. Qed.

Example dec_float_eight_tenths : dec 8 10 = 0.8%float.
Proof. reflexivity. Qed.

Example dec_float_one_and_a_half : dec 15 10 = 1.5%float.
Proof. reflexivity. Qed.

Example includes_ground_dirt : includes "ground dirt" "ground" = true.
Proof. reflexivity. Qed.

Example includes_block_wall : includes "block wall" "wall" = true.
Proof. reflexivity. Qed.

Example includes_not_collision : includes "not collision" "ground" = false.
Proof. reflexivity. Qed.

Example length_3_4_0 : length (mkVector3 3 4 0)%float = 5%float.
Proof. reflexivity. Qed.

Example normalize_zero_float :
  normalize (mkVector3 0 0 0)%float = (mkVector3 0 0 0)%float.
Proof. reflexivity. Qed.

Ltac run_state :=
  unfold bind, ret, get, modify, with_raycaster, with_direction, with_origin,
         read_direction, read_origin, query;
  cbn [fst snd raycaster direction origin].

(** A name that contains a boundary substring is not empty, so the
    truthiness test in front of the filter never rejects it. *)
Lemma isCollisionName_matches (n : string) :
  Unified.isCollisionName n = matchesBoundarySubstring n.
Proof.
  unfold Unified.isCollisionName, matchesBoundarySubstring, str_truthy.
  destruct n as [|c n']; [reflexivity|].
  reflexivity.
Qed.

Section ProbeFacts.
Context {T : Type} `{JSNumber T}.
Variable intersectObjects : IntersectObjects T.

Local Open Scope js_scope.

(** What a probe answers, read off the two queries it makes. *)
Lemma checkBoundaryCollision_outcome position velocity scene lookAhead s :
  fst (Unified.checkBoundaryCollision intersectObjects position velocity scene lookAhead s)
  = if length velocity <? dec 1 10 then None
    else
      match filter Unified.isCollisionHit
              (intersectObjects
                 (forwardRay (near (raycaster s)) position velocity
                             (default_arg lookAhead (ofZ 2)))
                 (children scene) true) with
      | h :: _ => Some (boundaryRecord velocity h)
      | [] =>
          match filter Unified.isCollisionHit
                  (intersectObjects (edgeRay (near (raycaster s)) position velocity)
                                    (children scene) true) with
          | [] => Some (trackEdgeRecord position velocity)
          | _ :: _ => None
          end
      end.
Proof.
  unfold Unified.checkBoundaryCollision, forwardRay, edgeRay.
  destruct (length velocity <? dec 1 10); [reflexivity|].
  run_state.
  unfold Raycaster_set, set_far, set_firstHitOnly; cbn.
  destruct (filter _ _) as [|h rest]; cbn; [|reflexivity].
  destruct (filter _ _) as [|h' rest']; reflexivity.
Qed.

(** A probe never touches the near plane of the shared raycaster. *)
Lemma checkBoundaryCollision_near position velocity scene lookAhead s :
  near (raycaster (snd (Unified.checkBoundaryCollision intersectObjects
                          position velocity scene lookAhead s)))
  = near (raycaster s).
Proof.
  unfold Unified.checkBoundaryCollision.
  destruct (length velocity <? dec 1 10); [reflexivity|].
  run_state.
  unfold Raycaster_set, set_far, set_firstHitOnly; cbn.
  destruct (filter _ _) as [|h rest]; cbn; [|reflexivity].
  destruct (filter _ _) as [|h' rest']; reflexivity.
Qed.

(** Hence what a probe answers depends on the state it starts in only
    through that near plane: every other field it reads, it has set. *)
Lemma checkBoundaryCollision_state_independent position velocity scene lookAhead s s' :
  near (raycaster s) = near (raycaster s') ->
  fst (Unified.checkBoundaryCollision intersectObjects position velocity scene lookAhead s)
  = fst (Unified.checkBoundaryCollision intersectObjects position velocity scene lookAhead s').
Proof.
  intros Hnear.
  rewrite !checkBoundaryCollision_outcome, Hnear.
  reflexivity.
Qed.

End ProbeFacts.

(* ------------------------------------------------------------------ *)
(** ** The collision probe *)

Lemma filter_none {A} (f : A -> bool) (l : list A) :
  (forall a, In a l -> f a = false) -> filter f l = [].
Proof.
  induction l as [|a l IH]; intros Hall; [reflexivity|].
  cbn. rewrite (Hall a (or_introl eq_refl)).
  apply IH. intros b Hb. apply Hall. now right.
Qed.

Lemma no_boundary_hits {T} (io : IntersectObjects T) scene rc :
  hitsOnSceneObjects io scene ->
  noBoundaryObjects scene ->
  filter Unified.isCollisionHit (io rc (children scene) true) = [].
Proof.
  intros Hon Hnone. apply filter_none. intros h Hin.
  unfold Unified.isCollisionHit. rewrite isCollisionName_matches.
  apply Hnone, (Hon rc), Hin.
Qed.

Lemma hitEverything_on_scene {T} `{JSNumber T} (scene : Object3D) :
  hitsOnSceneObjects Fixtures.hitEverything scene.
Proof.
  intros rc h Hin. unfold Fixtures.hitEverything in Hin.
  apply in_map_iff in Hin. destruct Hin as [o [Ho Hin]].
  subst h. exact Hin.
Qed.

Lemma noBoundaryObjects_forallb (scene : Object3D) :
  forallb (fun o => negb (matchesBoundarySubstring (name o)))
          (descendants (children scene)) = true ->
  noBoundaryObjects scene.
Proof.
  intros Hall o Hin.
  rewrite forallb_forall in Hall. specialize (Hall o Hin).
  now apply negb_true_iff in Hall.
Qed.

(** C8. A velocity whose magnitude is below 0.1 is not probed:
    [checkBoundaryCollision] answers [null] whatever the scene, the
    position, the look-ahead distance and the spatial query are, and it
    leaves the module state as it found it. Both variants of the file
    behave so. *)
Theorem C8_slow_velocity_returns_null :
  forall (T : Type) (N : JSNumber T) (io : IntersectObjects T)
         (position velocity : Vector3 T) (scene : Object3D)
         (lookAhead : option T) (s : ModuleState T),
    (length velocity <? dec 1 10)%js = true ->
    Unified.checkBoundaryCollision io position velocity scene lookAhead s = (None, s)
    /\ GroundOnly.checkBoundaryCollision io position velocity scene lookAhead s = (None, s).
Proof.
  intros T N io position velocity scene lookAhead s Hslow.
  unfold Unified.checkBoundaryCollision, GroundOnly.checkBoundaryCollision.
  rewrite Hslow. split; reflexivity.
Qed.

Lemma C8_witness :
  let velocity := (mkVector3 0.05 0 0)%float in
  (length velocity <? dec 1 10)%js = true
  /\ Unified.checkBoundaryCollision Fixtures.hitEverything
       (mkVector3 0 0 0)%float velocity Fixtures.mockScene None
       Fixtures.initialState
     = (None, Fixtures.initialState).
Proof.
  split; [vm_compute; reflexivity|].
  refine (proj1 (C8_slow_velocity_returns_null _ Fixtures.hitEverything
                   (mkVector3 0 0 0) (mkVector3 0.05 0 0) Fixtures.mockScene None
                   Fixtures.initialState _))%float.
  vm_compute; reflexivity.
Defined.

(** C1. When the velocity is not slower than 0.1 and the nearest
    intersection of the forward ray (from [position + (0, 0.5, 0)] along
    [normalize(velocity)], no farther than the look-ahead distance,
    2.0 by default) is with an object whose name contains "ground",
    "wall", "barrier" or "block", [checkBoundaryCollision] returns the
    record of that hit: its point, its distance, its face normal when
    there is one and the negated probe direction otherwise, with type
    'track_surface' when the name contains "ground" and 'wall' when it
    does not. *)
Theorem C1_boundary_hit_record :
  forall (T : Type) (N : JSNumber T) (io : IntersectObjects T)
         (position velocity : Vector3 T) (scene : Object3D)
         (lookAhead : option T) (s : ModuleState T)
         (nearest : Intersection T) (farther : list (Intersection T)),
    (length velocity <? dec 1 10)%js = false ->
    io (forwardRay (near (raycaster s)) position velocity
                   (default_arg lookAhead (ofZ 2)))
       (children scene) true = nearest :: farther ->
    matchesBoundarySubstring (name (hit_object nearest)) = true ->
    fst (Unified.checkBoundaryCollision io position velocity scene lookAhead s)
    = Some {| hit := true;
              point := hit_point nearest;
              normal := match hit_face nearest with
                        | Some f => face_normal f
                        | None => negate (normalize velocity)
                        end;
              distance := hit_distance nearest;
              type := if includes (name (hit_object nearest)) "ground"
                      then "track_surface" else "wall" |}.
Proof.
  intros T N io position velocity scene lookAhead s nearest farther
         Hspeed Hquery Hname.
  rewrite checkBoundaryCollision_outcome, Hspeed, Hquery.
  cbn [filter]. unfold Unified.isCollisionHit at 1.
  rewrite isCollisionName_matches, Hname.
  reflexivity.
Qed.

Lemma C1_witness :
  let position := (mkVector3 0 0 0)%float in
  let velocity := (mkVector3 0 0 (-10))%float in
  fst (Unified.checkBoundaryCollision Fixtures.hitEverything position velocity
         Fixtures.wallOnly None Fixtures.initialState)
  = Some {| hit := true;
            point := (mkVector3 0 0.5 (-2))%float;
            normal := (mkVector3 (-0) (-0) 1)%float;
            distance := 2%float;
            type := "wall" |}.
Proof.
  intros position velocity.
  pose proof (C1_boundary_hit_record _ Fixtures.hitEverything
                position velocity Fixtures.wallOnly None
                Fixtures.initialState
                (nearest := mkIntersection 2%float (mkVector3 0 0.5 (-2))%float
                              None (Fixtures.mesh "wall"))
                (farther := [])) as Hrecord.
  specialize (Hrecord ltac:(vm_compute; reflexivity)
                        ltac:(vm_compute; reflexivity)
                        ltac:(vm_compute; reflexivity)).
  rewrite Hrecord. vm_compute. reflexivity.
Defined.

Lemma isGroundName_matches (n : string) :
  matchesBoundarySubstring n = false -> GroundOnly.isGroundName n = false.
Proof.
  unfold matchesBoundarySubstring, GroundOnly.isGroundName.
  intros Hnone. apply orb_false_iff in Hnone. destruct Hnone as [Hnone _].
  apply orb_false_iff in Hnone. destruct Hnone as [Hnone _].
  apply orb_false_iff in Hnone. destruct Hnone as [Hground _].
  rewrite Hground. apply andb_false_r.
Qed.

Lemma no_ground_hits {T} (io : IntersectObjects T) scene rc :
  hitsOnSceneObjects io scene ->
  noBoundaryObjects scene ->
  filter GroundOnly.isGroundHit (io rc (children scene) true) = [].
Proof.
  intros Hon Hnone. apply filter_none. intros h Hin.
  apply isGroundName_matches, Hnone, (Hon rc), Hin.
Qed.

(** What a probe of the ground-only variant answers. *)
Lemma groundOnly_outcome {T} `{JSNumber T} (io : IntersectObjects T)
    position velocity scene lookAhead s :
  fst (GroundOnly.checkBoundaryCollision io position velocity scene lookAhead s)
  = if (length velocity <? dec 1 10)%js then None
    else
      match filter GroundOnly.isGroundHit
              (io (forwardRay (near (raycaster s)) position velocity
                              (default_arg lookAhead (ofZ 2)))
                  (children scene) true) with
      | _ :: _ => None
      | [] =>
          match filter GroundOnly.isGroundHit
                  (io (edgeRay (near (raycaster s)) position velocity)
                      (children scene) true) with
          | [] => Some (trackEdgeRecord position velocity)
          | _ :: _ => None
          end
      end.
Proof.
  unfold GroundOnly.checkBoundaryCollision, forwardRay, edgeRay.
  destruct (length velocity <? dec 1 10)%js; [reflexivity|].
  run_state.
  unfold Raycaster_set, set_far, set_firstHitOnly; cbn.
  destruct (filter _ _) as [|h rest]; cbn; [|reflexivity].
  destruct (filter _ _) as [|h' rest']; reflexivity.
Qed.

(** C2, as amended. In a scene none of whose objects carries a boundary
    name, every velocity that is not slower than 0.1 gets a 'track_edge'
    record: distance 0.5, point [position + normalize(velocity) * 0.5],
    normal the negated normalized velocity. Both variants of the file
    behave so. (Velocities that are nonzero but slower than 0.1 are
    stopped by the speed guard and get [null].) *)
Theorem C2_track_edge_in_boundless_scene :
  forall (T : Type) (N : JSNumber T) (io : IntersectObjects T)
         (position velocity : Vector3 T) (scene : Object3D)
         (lookAhead : option T) (s : ModuleState T),
    (length velocity <? dec 1 10)%js = false ->
    noBoundaryObjects scene ->
    hitsOnSceneObjects io scene ->
    let edge := {| hit := true;
                   point := vadd position
                              (multiplyScalar (normalize velocity) (dec 5 10));
                   normal := negate (normalize velocity);
                   distance := dec 5 10;
                   type := "track_edge" |} in
    fst (Unified.checkBoundaryCollision io position velocity scene lookAhead s)
    = Some edge
    /\ fst (GroundOnly.checkBoundaryCollision io position velocity scene lookAhead s)
       = Some edge.
Proof.
  intros T N io position velocity scene lookAhead s Hspeed Hnone Hon edge.
  split.
  - rewrite checkBoundaryCollision_outcome, Hspeed.
    rewrite !no_boundary_hits by assumption.
    reflexivity.
  - rewrite groundOnly_outcome, Hspeed.
    rewrite !no_ground_hits by assumption.
    reflexivity.
Qed.

Lemma C2_witness :
  let position := (mkVector3 0 0 0)%float in
  let velocity := (mkVector3 0 0 (-10))%float in
  fst (Unified.checkBoundaryCollision Fixtures.hitEverything position velocity
         Fixtures.sceneryOnly None Fixtures.initialState)
  = Some {| hit := true;
            point := (mkVector3 0 0 (-0.5))%float;
            normal := (mkVector3 (-0) (-0) 1)%float;
            distance := 0.5%float;
            type := "track_edge" |}.
Proof.
  intros position velocity.
  pose proof (@C2_track_edge_in_boundless_scene float _ Fixtures.hitEverything
                position velocity Fixtures.sceneryOnly None
                Fixtures.initialState) as Hedge.
  specialize (Hedge ltac:(vm_compute; reflexivity)
                    ltac:(apply noBoundaryObjects_forallb; vm_compute; reflexivity)
                    (hitEverything_on_scene Fixtures.sceneryOnly)).
  destruct Hedge as [Hedge _].
  rewrite Hedge. vm_compute. reflexivity.
Defined.

(** C2, as stated, fails: the velocity (0.05, 0, 0) has a nonzero
    magnitude and the scene is empty, yet the answer is [null], because
    0.05 is below the speed guard. *)
Lemma C2_counterexample :
  let position := (mkVector3 0 0 0)%float in
  let velocity := (mkVector3 0.05 0 0)%float in
  truthy (length velocity) = true
  /\ noBoundaryObjects Fixtures.emptyScene
  /\ hitsOnSceneObjects (T := float) Fixtures.hitEverything Fixtures.emptyScene
  /\ fst (Unified.checkBoundaryCollision Fixtures.hitEverything position velocity
            Fixtures.emptyScene None Fixtures.initialState) = None
  /\ fst (GroundOnly.checkBoundaryCollision Fixtures.hitEverything position velocity
            Fixtures.emptyScene None Fixtures.initialState) = None.
Proof.
  intros position velocity.
  split; [vm_compute; reflexivity|].
  split; [intros o []|].
  split; [apply hitEverything_on_scene|].
  split; vm_compute; reflexivity.
Qed.

(* ------------------------------------------------------------------ *)
(** ** The bounce responder *)

(** C10. The bounce response does not depend on the hit point: two calls
    that differ in [hitPoint] only return the same response. *)
Theorem C10_bounce_ignores_hit_point :
  forall (T : Type) (N : JSNumber T) (p1 p2 hitNormal velocity : Vector3 T)
         (bounceStrength : option T),
    Unified.calculateBounceResponse p1 hitNormal velocity bounceStrength
    = Unified.calculateBounceResponse p2 hitNormal velocity bounceStrength.
Proof.
  intros T N p1 p2 hitNormal velocity bounceStrength.
  reflexivity.
Qed.

(** C7. When the reflected velocity [(v - n * (2 * (v . n))) * s] is not
    slower than 2.0, it is returned as it is; [force] is its magnitude
    and [direction] is its normalization, so the three fields describe
    one vector. (Nothing asks that [n] have unit length.) *)
Theorem C7_energetic_bounce_is_plain_reflection :
  forall (T : Type) (N : JSNumber T) (hitPoint n v : Vector3 T)
         (bounceStrength : option T),
    let s := default_arg bounceStrength (dec 8 10) in
    let k := (ofZ 2 * (x v * x n + y v * y n + z v * z n))%js in
    let reflected := mkVector3 ((x v - x n * k) * s)%js
                               ((y v - y n * k) * s)%js
                               ((z v - z n * k) * s)%js in
    (length reflected <? ofZ 2)%js = false ->
    let response := Unified.calculateBounceResponse hitPoint n v bounceStrength in
    BounceResponse.velocity response = reflected
    /\ BounceResponse.force response = length reflected
    /\ BounceResponse.direction response = normalize reflected
    /\ BounceResponse.force response = length (BounceResponse.velocity response)
    /\ BounceResponse.direction response
       = normalize (BounceResponse.velocity response).
Proof.
  intros T N hitPoint n v bounceStrength s k reflected Hfast response.
  unfold response, Unified.calculateBounceResponse.
  change (multiplyScalar (reflect v n) (default_arg bounceStrength (dec 8 10)))
    with reflected.
  rewrite Hfast. cbn [BounceResponse.velocity BounceResponse.force
                      BounceResponse.direction].
  repeat split.
Qed.

Lemma C7_witness :
  let response :=
    Unified.calculateBounceResponse (mkVector3 0 0 (-5))%float
      (mkVector3 0 0 1)%float (mkVector3 0 0 (-10))%float None in
  BounceResponse.velocity response = (mkVector3 0 0 8)%float
  /\ BounceResponse.force response = 8%float
  /\ BounceResponse.direction response = (mkVector3 0 0 1)%float.
Proof.
  intros response.
  pose proof (@C7_energetic_bounce_is_plain_reflection float _
                (mkVector3 0 0 (-5))%float (mkVector3 0 0 1)%float
                (mkVector3 0 0 (-10))%float None) as Hplain.
  cbv zeta in Hplain.
  specialize (Hplain ltac:(vm_compute; reflexivity)).
  destruct Hplain as [Hv [Hf [Hd _]]].
  fold response in Hv, Hf, Hd.
  rewrite Hv, Hf, Hd.
  vm_compute. repeat split.
Defined.

Section RealVectors.

Local Open Scope R_scope.

Lemma R_ltb_true (a b : R) : a < b -> R_ltb a b = true.
Proof.
  intros Hlt. unfold R_ltb. destruct (Rlt_dec a b); [reflexivity|contradiction].
Qed.

(** On the reals, the speed guards not firing is the magnitude being at
    least the bound. *)
Lemma R_ltb_false_iff (a b : R) : R_ltb a b = false <-> b <= a.
Proof.
  unfold R_ltb. destruct (Rlt_dec a b); split; intros; try lra; congruence.
Qed.

Lemma R_leb_true (a b : R) : a <= b -> R_leb a b = true.
Proof.
  intros Hle. unfold R_leb. destruct (Rle_dec a b); [reflexivity|contradiction].
Qed.

Lemma R_truthy_true (a : R) : a <> 0 -> R_truthy a = true.
Proof.
  intros Hne. unfold R_truthy. destruct (Req_dec_T a 0); [contradiction|reflexivity].
Qed.

Lemma R_truthy_zero : R_truthy 0 = false.
Proof.
  unfold R_truthy. destruct (Req_dec_T 0 0); [reflexivity|congruence].
Qed.

Lemma length_R (v : Vector3 R) :
  length v = R_sqrt.sqrt (x v * x v + y v * y v + z v * z v).
Proof. reflexivity. Qed.

Lemma sum_squares_nonneg (a b c : R) : 0 <= a * a + b * b + c * c.
Proof. nra. Qed.

(** Scaling by a non-negative factor scales the magnitude by it. *)
Lemma length_R_multiplyScalar (v : Vector3 R) (k : R) :
  0 <= k -> length (multiplyScalar v k) = k * length v.
Proof.
  intros Hk. rewrite !length_R. unfold multiplyScalar. cbn.
  replace (x v * k * (x v * k) + y v * k * (y v * k) + z v * k * (z v * k))
    with ((k * k) * (x v * x v + y v * y v + z v * z v)) by ring.
  rewrite sqrt_mult; [|nra|apply sum_squares_nonneg].
  rewrite sqrt_square by assumption.
  reflexivity.
Qed.

(** A vector of nonzero magnitude is normalized by dividing by it. *)
Lemma normalize_R_nonzero (v : Vector3 R) :
  length v <> 0 -> normalize v = multiplyScalar v (1 / length v).
Proof.
  intros Hne. unfold normalize, divideScalar, js_or.
  cbn [truthy R_JSNumber]. rewrite R_truthy_true by assumption.
  reflexivity.
Qed.

Lemma multiplyScalar_R_twice (v : Vector3 R) (a b : R) :
  multiplyScalar (multiplyScalar v a) b = multiplyScalar v (a * b).
Proof.
  unfold multiplyScalar. cbn. f_equal; ring.
Qed.

(** Boosting a slow nonzero vector gives magnitude 2 and keeps its
    direction. *)
Lemma boost_R (r : Vector3 R) :
  0 < length r ->
  let boosted := multiplyScalar (normalize r) 2 in
  length boosted = 2 /\ normalize boosted = normalize r.
Proof.
  intros Hpos boosted.
  assert (Hlen : length boosted = 2).
  { unfold boosted. rewrite normalize_R_nonzero by lra.
    rewrite multiplyScalar_R_twice.
    rewrite length_R_multiplyScalar.
    - field. lra.
    - apply Rmult_le_pos; [|lra].
      apply Rlt_le, Rdiv_lt_0_compat; [lra|exact Hpos]. }
  split; [exact Hlen|].
  rewrite (normalize_R_nonzero boosted) by (rewrite Hlen; lra).
  rewrite Hlen. unfold boosted.
  rewrite normalize_R_nonzero by lra.
  rewrite !multiplyScalar_R_twice.
  f_equal. field. lra.
Qed.

End RealVectors.

(** In real arithmetic the boost is exact: when the reflected velocity
    scaled by the bounce strength is not the zero vector and is slower
    than 2.0, the returned velocity has magnitude 2, and the returned
    direction is the normalized reflected vector. Binary64 follows this
    up to rounding only; see the cases below. *)
Lemma slow_bounce_over_the_reals :
  forall (hitPoint hitNormal velocity : Vector3 R) (bounceStrength : option R),
    let reflected := multiplyScalar (reflect velocity hitNormal)
                       (default_arg bounceStrength (dec 8 10)) in
    (0 < length reflected)%R ->
    (length reflected < 2)%R ->
    let response :=
      Unified.calculateBounceResponse hitPoint hitNormal velocity bounceStrength in
    length (BounceResponse.velocity response) = 2%R
    /\ BounceResponse.force response = 2%R
    /\ BounceResponse.direction response = normalize reflected
    /\ normalize (BounceResponse.velocity response) = normalize reflected.
Proof.
  intros hitPoint hitNormal velocity bounceStrength reflected Hpos Hslow response.
  unfold response, Unified.calculateBounceResponse.
  fold reflected.
  cbn [ltb R_JSNumber ofZ]. rewrite R_ltb_true by exact Hslow.
  cbn [BounceResponse.velocity BounceResponse.force BounceResponse.direction].
  destruct (boost_R reflected Hpos) as [Hlen Hdir].
  repeat split; assumption.
Qed.

(** C3, as amended. When the reflected velocity
    [r = (v - n * (2 * (v . n))) * s] has a magnitude [m] below 2.0, the
    returned velocity is [r] divided by [m] (by 1 when [m] is zero or
    not a number) and multiplied by 2.0; [force] is the magnitude of
    that velocity and [direction] its normalization. This holds for any
    arithmetic, binary64 included. *)
Theorem C3_slow_bounce_is_rescaled :
  forall (T : Type) (N : JSNumber T) (hitPoint n v : Vector3 T)
         (bounceStrength : option T),
    let s := default_arg bounceStrength (dec 8 10) in
    let k := (ofZ 2 * (x v * x n + y v * y n + z v * z n))%js in
    let r := mkVector3 ((x v - x n * k) * s)%js
                       ((y v - y n * k) * s)%js
                       ((z v - z n * k) * s)%js in
    let m := sqrt (x r * x r + y r * y r + z r * z r)%js in
    (m <? ofZ 2)%js = true ->
    let divisor := if truthy m then m else ofZ 1 in
    let rescaled := mkVector3 (x r * (ofZ 1 / divisor) * ofZ 2)%js
                              (y r * (ofZ 1 / divisor) * ofZ 2)%js
                              (z r * (ofZ 1 / divisor) * ofZ 2)%js in
    let response := Unified.calculateBounceResponse hitPoint n v bounceStrength in
    BounceResponse.velocity response = rescaled
    /\ BounceResponse.force response = length rescaled
    /\ BounceResponse.direction response = normalize rescaled.
Proof.
  intros T N hitPoint n v bounceStrength s k r m Hslow divisor rescaled response.
  unfold response, Unified.calculateBounceResponse.
  change (multiplyScalar (reflect v n) (default_arg bounceStrength (dec 8 10)))
    with r.
  change (length r) with m.
  rewrite Hslow.
  cbn [BounceResponse.velocity BounceResponse.force BounceResponse.direction].
  change (multiplyScalar (normalize r) (ofZ 2)) with rescaled.
  repeat split.
Qed.

Lemma C3_witness :
  let response :=
    Unified.calculateBounceResponse (mkVector3 0 0 (-5))%float
      (mkVector3 0 0 1)%float (mkVector3 1 1 1)%float None in
  BounceResponse.velocity response
  = (mkVector3 1.1547005383792512 1.1547005383792512 (-1.1547005383792512))%float
  /\ BounceResponse.force response = 1.9999999999999993%float
  /\ BounceResponse.direction response
     = (mkVector3 0.57735026918962584 0.57735026918962584
                  (-0.57735026918962584))%float.
Proof.
  intros response.
  pose proof (@C3_slow_bounce_is_rescaled float float_JSNumber
                (mkVector3 0 0 (-5))%float (mkVector3 0 0 1)%float
                (mkVector3 1 1 1)%float None) as Hrescaled.
  cbv zeta in Hrescaled.
  specialize (Hrescaled ltac:(vm_compute; reflexivity)).
  destruct Hrescaled as [Hv [Hf Hd]].
  fold response in Hv, Hf, Hd.
  rewrite Hv, Hf, Hd.
  vm_compute. repeat split.
Defined.

(** C3, as stated, fails in three ways, each with a reflected velocity
    slower than 2.0. A kart standing still: the reflected velocity is
    the zero vector and stays so, because normalizing divides by
    [length() || 1]; the magnitude is 0. The velocity (1, 1, 1): the
    boosted magnitude is 1.9999999999999993, and the returned direction
    is not the normalized reflected vector, by rounding. The velocity
    (1e-200, 0, 0): the squares underflow, the magnitude reads 0 and the
    vector is only doubled. *)
Lemma C3_counterexample :
  let reflected := fun v : Vector3 float =>
    multiplyScalar (reflect v (mkVector3 0 0 1)%float) (dec 8 10) in
  let response := fun v : Vector3 float =>
    Unified.calculateBounceResponse (mkVector3 0 0 (-5))%float
      (mkVector3 0 0 1)%float v None in
  let still := (mkVector3 0 0 0)%float in
  let diagonal := (mkVector3 1 1 1)%float in
  let tiny := (mkVector3 1e-200 0 0)%float in
  ((length (reflected still) <? ofZ 2)%js = true
   /\ length (BounceResponse.velocity (response still)) = 0%float
   /\ PrimFloat.eqb (length (BounceResponse.velocity (response still))) 2 = false)
  /\ ((length (reflected diagonal) <? ofZ 2)%js = true
      /\ length (BounceResponse.velocity (response diagonal))
         = 1.9999999999999993%float
      /\ PrimFloat.eqb (length (BounceResponse.velocity (response diagonal))) 2
         = false
      /\ x (BounceResponse.direction (response diagonal))
         = 0.57735026918962584%float
      /\ x (normalize (reflected diagonal)) = 0.57735026918962562%float)
  /\ ((length (reflected tiny) <? ofZ 2)%js = true
      /\ length (BounceResponse.velocity (response tiny)) = 0%float
      /\ x (BounceResponse.direction (response tiny))
         = 1.6000000000000002e-200%float
      /\ x (normalize (reflected tiny)) = 8.000000000000001e-201%float).
Proof.
  intros reflected response still diagonal tiny.
  repeat split; vm_compute; reflexivity.
Qed.

(** In binary64 the boost reaches 2.0 only up to rounding. *)
Example bounce_float_rounding :
  BounceResponse.force
    (Unified.calculateBounceResponse (mkVector3 0 0 (-5))%float
       (mkVector3 0 0 1)%float (mkVector3 1 1 1)%float None)
  = 1.9999999999999993%float.
Proof. vm_compute. reflexivity. Qed.

(* ------------------------------------------------------------------ *)
(** ** The track containment check *)

Lemma isPositionOnTrack_outcome {T} `{JSNumber T} (io : IntersectObjects T)
    position scene maxDistance s :
  fst (Unified.isPositionOnTrack io position scene maxDistance s)
  = match filter Unified.isCollisionHit
            (io (downRay (near (raycaster s)) position
                         (default_arg maxDistance (ofZ 3)))
                (children scene) true) with
    | h :: _ =>
        (abs (y position - y (hit_point h))
         <=? default_arg maxDistance (ofZ 3))%js
    | [] => false
    end.
Proof.
  unfold Unified.isPositionOnTrack, downRay.
  run_state.
  unfold Raycaster_set, set_far, set_firstHitOnly; cbn.
  destruct (filter _ _) as [|h rest]; reflexivity.
Qed.

Lemma groundOnly_isPositionOnTrack_outcome {T} `{JSNumber T}
    (io : IntersectObjects T) position scene maxDistance s :
  fst (GroundOnly.isPositionOnTrack io position scene maxDistance s)
  = match filter GroundOnly.isGroundHit
            (io (downRay (near (raycaster s)) position
                         (default_arg maxDistance (ofZ 3)))
                (children scene) true) with
    | h :: _ =>
        (abs (y position - y (hit_point h))
         <=? default_arg maxDistance (ofZ 3))%js
    | [] => false
    end.
Proof.
  unfold GroundOnly.isPositionOnTrack, downRay.
  run_state.
  unfold Raycaster_set, set_far, set_firstHitOnly; cbn.
  destruct (filter _ _) as [|h rest]; reflexivity.
Qed.

(** In binary64 a number that is not NaN is [<=] itself. *)
Lemma float_leb_refl (a : float) :
  PrimFloat.eqb a a = true -> PrimFloat.leb a a = true.
Proof.
  rewrite FloatAxioms.eqb_spec, FloatAxioms.leb_spec.
  unfold SpecFloat.SFeqb, SpecFloat.SFleb.
  destruct (SpecFloat.SFcompare _ _) as [[| |]|]; congruence.
Qed.

(** C6, as amended. [isPositionOnTrack] answers true exactly when the
    downward ray from [position + (0, 2, 0)], no farther than
    [maxDistance + 2] (3.0 + 2 by default), has a boundary-named hit and
    the nearest such hit, the first the query lists, lies within
    [maxDistance] of [position.y], the comparison being [<=]; without a
    boundary-named hit the answer is false. A nearest hit at exactly
    [maxDistance] gives true, on the reals and in binary64 (there, for a
    [maxDistance] that is a number). *)
Theorem C6_on_track_iff_first_boundary_hit_close :
  (forall (T : Type) (N : JSNumber T) (io : IntersectObjects T)
          (position : Vector3 T) (scene : Object3D)
          (maxDistance : option T) (s : ModuleState T),
      let limit := default_arg maxDistance (ofZ 3) in
      let boundaryHits :=
        filter Unified.isCollisionHit
          (io (downRay (near (raycaster s)) position limit)
              (children scene) true) in
      let answer := fst (Unified.isPositionOnTrack io position scene maxDistance s) in
      (answer = true <->
       exists h rest,
         boundaryHits = h :: rest
         /\ (abs (y position - y (hit_point h)) <=? limit)%js = true)
      /\ (boundaryHits = [] -> answer = false))
  /\
  (forall (io : IntersectObjects R) (position : Vector3 R) (scene : Object3D)
          (maxDistance : option R) (s : ModuleState R)
          (h : Intersection R) (rest : list (Intersection R)),
      let limit := default_arg maxDistance 3%R in
      filter Unified.isCollisionHit
        (io (downRay (near (raycaster s)) position limit) (children scene) true)
      = h :: rest ->
      Rabs (y position - y (hit_point h)) = limit ->
      fst (Unified.isPositionOnTrack io position scene maxDistance s) = true)
  /\
  (forall (io : IntersectObjects float) (position : Vector3 float)
          (scene : Object3D) (maxDistance : option float)
          (s : ModuleState float)
          (h : Intersection float) (rest : list (Intersection float)),
      let limit := default_arg maxDistance 3%float in
      filter Unified.isCollisionHit
        (io (downRay (near (raycaster s)) position limit) (children scene) true)
      = h :: rest ->
      PrimFloat.abs (y position - y (hit_point h))%float = limit ->
      PrimFloat.eqb limit limit = true ->
      fst (Unified.isPositionOnTrack io position scene maxDistance s) = true).
Proof.
  split; [|split].
  - intros T N io position scene maxDistance s limit boundaryHits answer.
    unfold answer. rewrite isPositionOnTrack_outcome.
    fold limit. fold boundaryHits.
    split.
    + destruct boundaryHits as [|h rest].
      * split; [discriminate|]. intros [h [rest [Habs _]]]. discriminate Habs.
      * split.
        -- intros Hclose. exists h, rest. split; [reflexivity|exact Hclose].
        -- intros [h' [rest' [Heq Hclose]]].
           injection Heq as Hh _. subst h'. exact Hclose.
    + intros Hnone. rewrite Hnone. reflexivity.
  - intros io position scene maxDistance s h rest limit Hhits Hexact.
    rewrite isPositionOnTrack_outcome.
    change (ofZ 3) with 3%R. fold limit. rewrite Hhits.
    cbn [leb abs sub R_JSNumber]. rewrite Hexact.
    apply R_leb_true, Rle_refl.
  - intros io position scene maxDistance s h rest limit Hhits Hexact Hnumber.
    rewrite isPositionOnTrack_outcome.
    change (ofZ 3) with 3%float. fold limit. rewrite Hhits.
    cbn [leb abs sub float_JSNumber]. rewrite Hexact.
    apply float_leb_refl, Hnumber.
Qed.

(** C6, as stated, fails when a boundary hit within reach lies behind
    one out of reach: from height 0 with [maxDistance] 1, a bridge 1.5
    above is met first and the ground 0.5 below second; a boundary hit
    within 1 exists, yet the answer is false, because only the nearest
    boundary hit is consulted. *)
Lemma C6_counterexample :
  let overhead := mkIntersection 0.5%float (mkVector3 0 1.5 0)%float None
                    (Fixtures.mesh "ground bridge") in
  let below := mkIntersection 2.5%float (mkVector3 0 (-0.5) 0)%float None
                 (Fixtures.mesh "ground") in
  let io := Fixtures.mockReturnValue [overhead; below] in
  let position := (mkVector3 0 0 0)%float in
  In below
     (filter Unified.isCollisionHit
        (io (downRay (near (raycaster Fixtures.initialState)) position 1%float)
            (children Fixtures.mockScene) true))
  /\ (abs (y position - y (hit_point below)) <=? 1%float)%js = true
  /\ fst (Unified.isPositionOnTrack io position Fixtures.mockScene
            (Some 1%float) Fixtures.initialState) = false.
Proof.
  intros overhead below io position.
  split; [|split].
  - cbn. right. left. reflexivity.
  - vm_compute. reflexivity.
  - vm_compute. reflexivity.
Qed.

Lemma C6_witness :
  fst (Unified.isPositionOnTrack Fixtures.hitEverything (mkVector3 0 0 0)%float
         Fixtures.mockScene None Fixtures.initialState) = true
  /\ fst (Unified.isPositionOnTrack Fixtures.hitEverything (mkVector3 0 0 0)%float
            Fixtures.sceneryOnly None Fixtures.initialState) = false
  /\ fst (Unified.isPositionOnTrack
            (Fixtures.mockReturnValue [Fixtures.mockHit (-3) "ground"])
            (mkVector3 0 0 0)%float Fixtures.mockScene None
            Fixtures.initialState) = true.
Proof.
  pose proof (proj1 C6_on_track_iff_first_boundary_hit_close float _
                Fixtures.hitEverything (mkVector3 0 0 0)%float) as Hiff.
  split; [|split].
  - apply (proj1 (Hiff Fixtures.mockScene None Fixtures.initialState)).
    eexists. eexists. split; vm_compute; reflexivity.
  - apply (proj2 (Hiff Fixtures.sceneryOnly None Fixtures.initialState)).
    vm_compute. reflexivity.
  - apply (proj2 (proj2 C6_on_track_iff_first_boundary_hit_close)
             (Fixtures.mockReturnValue [Fixtures.mockHit (-3) "ground"])
             (mkVector3 0 0 0)%float Fixtures.mockScene None
             Fixtures.initialState (Fixtures.mockHit (-3) "ground") []);
      vm_compute; reflexivity.
Defined.

(* ------------------------------------------------------------------ *)
(** ** The multi-directional prober *)

(** About the vertical axis, [applyAxisAngle] is the rotation of the
    horizontal components by the given angle; the height is kept. *)
Lemma applyAxisAngle_vertical_R (v : Vector3 R) (angle : R) :
  applyAxisAngle v (mkVector3 0 1 0)%R angle
  = (mkVector3 (x v * Rtrigo_def.cos angle + z v * Rtrigo_def.sin angle)
               (y v)
               (z v * Rtrigo_def.cos angle - x v * Rtrigo_def.sin angle))%R.
Proof.
  unfold applyAxisAngle, setFromAxisAngle, applyQuaternion.
  cbn [x y z qx qy qz qw ofZ add sub mul div sin cos R_JSNumber R_JSTrig].
  assert (Hcos : Rtrigo_def.cos angle
                 = (1 - 2 * Rtrigo_def.sin (angle / 2) * Rtrigo_def.sin (angle / 2))%R)
    by (rewrite <- cos_2a_sin; f_equal; field).
  assert (Hsin : Rtrigo_def.sin angle
                 = (2 * Rtrigo_def.sin (angle / 2) * Rtrigo_def.cos (angle / 2))%R)
    by (rewrite <- sin_2a; f_equal; field).
  rewrite Hcos, Hsin.
  f_equal; ring.
Qed.

Section MultiFacts.
Context {T : Type} `{JSNumber T}.
Variable io : IntersectObjects T.
Variables position velocity : Vector3 T.
Variable scene : Object3D.

Local Open Scope list_scope.

(** Running the probes one after the other collects the same hits as
    running each of them from the initial state. *)
Lemma forEach_probeAndCollect s dirs :
  forall index collisions s0,
    near (raycaster s0) = near (raycaster s) ->
    fst (forEach dirs index (probeAndCollect io position velocity scene)
           collisions s0)
    = collisions ++ probesFrom io position velocity scene s dirs index.
Proof.
  induction dirs as [|dir dirs IH]; intros index collisions s0 Hnear.
  - cbn. now rewrite app_nil_r.
  - cbn [forEach probesFrom]. unfold bind at 1. unfold probeAndCollect at 1.
    unfold bind at 1.
    pose proof (checkBoundaryCollision_near io position
                  (multiplyScalar dir (length velocity)) scene None s0) as Hkeep.
    pose proof (checkBoundaryCollision_state_independent io position
                  (multiplyScalar dir (length velocity)) scene None s0 s Hnear)
      as Hsame.
    destruct (Unified.checkBoundaryCollision io position
                (multiplyScalar dir (length velocity)) scene None s0) as [r s1].
    cbn [fst snd] in Hkeep, Hsame. rewrite <- Hsame.
    destruct r as [c|]; unfold ret at 1.
    + rewrite IH by congruence. now rewrite <- app_assoc.
    + rewrite IH by congruence. reflexivity.
Qed.

End MultiFacts.

(** C5. [checkMultiDirectionalCollision] probes, each at the speed of
    the original velocity, the forward direction, that direction turned
    by [PI / 4] about the vertical axis and that direction turned by
    [- PI / 4], and returns the first answer that is not [null] together
    with its index 0, 1 or 2; it returns [null] exactly when the three
    probes return [null]. What a probe answers does not depend on the
    probes run before it. *)
Theorem C5_first_probe_that_hits :
  forall (T : Type) (N : JSNumber T) (Tr : JSTrig T) (io : IntersectObjects T)
         (position velocity : Vector3 T) (scene : Object3D) (s : ModuleState T),
    let vertical := mkVector3 (ofZ 0) (ofZ 1) (ofZ 0) in
    let forward := normalize velocity in
    let turnedLeft := applyAxisAngle (normalize velocity) vertical (PI / ofZ 4)%js in
    let turnedRight := applyAxisAngle (normalize velocity) vertical (- PI / ofZ 4)%js in
    let probe := fun dir =>
      fst (Unified.checkBoundaryCollision io position
             (multiplyScalar dir (length velocity)) scene None s) in
    let answer :=
      fst (Unified.checkMultiDirectionalCollision io position velocity scene s) in
    answer = match probe forward with
             | Some c => Some (mkDirectedHit c 0)
             | None =>
                 match probe turnedLeft with
                 | Some c => Some (mkDirectedHit c 1)
                 | None =>
                     match probe turnedRight with
                     | Some c => Some (mkDirectedHit c 2)
                     | None => None
                     end
                 end
             end
    /\ (answer = None <->
        probe forward = None /\ probe turnedLeft = None /\ probe turnedRight = None).
Proof.
  intros T N Tr io position velocity scene s vertical forward turnedLeft
         turnedRight probe answer.
  assert (Hanswer :
    answer = match probesFrom io position velocity scene s
                     [forward; turnedLeft; turnedRight] 0 with
             | c :: _ => Some c
             | [] => None
             end).
  { unfold answer, Unified.checkMultiDirectionalCollision. unfold bind at 1.
    pose proof (forEach_probeAndCollect io position velocity scene s
                  (Unified.directions velocity) 0 [] s eq_refl) as Hloop.
    unfold probeAndCollect in Hloop.
    destruct (forEach (Unified.directions velocity) 0 _ [] s) as [collisions s'].
    cbn [fst] in Hloop. subst collisions. reflexivity. }
  cbn [probesFrom] in Hanswer.
  fold (probe forward) in Hanswer.
  fold (probe turnedLeft) in Hanswer.
  fold (probe turnedRight) in Hanswer.
  destruct (probe forward) as [c0|];
    destruct (probe turnedLeft) as [c1|];
    destruct (probe turnedRight) as [c2|];
    cbn [app] in Hanswer; rewrite Hanswer;
    (split; [reflexivity|]);
    split; try discriminate; try tauto;
    intros [H0 [H1 H2]]; discriminate.
Qed.

(* ------------------------------------------------------------------ *)
(** ** The ground contact resolver *)

Section KartFacts.
Context {T : Type} `{JSNumber T}.
Variable intersectObjects : IntersectObjects T.
Variable mockScene : Object3D.

(** What the resolver does, read off the query it makes. *)
Lemma getGroundPosition_outcome wheelBase offset wheelIndex delta s :
  let ray := wheelRay (near (Kart.mockRaycaster s)) wheelBase in
  Kart.getGroundPosition intersectObjects mockScene wheelBase offset wheelIndex delta s
  = match intersectObjects ray (children mockScene) true with
    | hit :: _ =>
        let safeY := (y (hit_point hit) + dec 3 10)%js in
        (safeY,
         Kart.mkFixture ray
           (Kart.mkWheel safeY
              (String.eqb (name (hit_object hit)) "ground dirt"
               && (y (hit_point hit) <? dec 5 10)%js)))
    | [] =>
        (Kart.position_y (Kart.wheel s),
         Kart.mkFixture ray (Kart.mkWheel (Kart.position_y (Kart.wheel s)) false))
    end.
Proof.
  unfold Kart.getGroundPosition, wheelRay.
  unfold bind, ret, get, modify, Kart.with_mockRaycaster, Kart.set_position_y,
         Kart.set_isOnDirt, Raycaster_set, set_far, set_firstHitOnly.
  cbn.
  destruct (intersectObjects _ _ _) as [|hit rest]; [reflexivity|].
  destruct (String.eqb _ _ && _); reflexivity.
Qed.

End KartFacts.

(** C4, as amended. When the first hit of the wheel's downward ray (from
    the wheel mount's world position, no farther than 3.0) is on the
    object named exactly "ground dirt", the wheel's dirt flag becomes
    true if the hit point's Y is below 0.5 and false if it is not; the
    wheel's vertical position becomes the hit point's Y plus 0.3, which
    is also the value returned. *)
Theorem C4_ground_dirt_classification :
  forall (T : Type) (N : JSNumber T) (io : IntersectObjects T)
         (mockScene : Object3D) (wheelBase : Kart.WheelBase T)
         (offset : option T) (wheelIndex : nat) (delta : T)
         (s : Kart.Fixture T)
         (hit : Intersection T) (rest : list (Intersection T)),
    io (wheelRay (near (Kart.mockRaycaster s)) wheelBase)
       (children mockScene) true = hit :: rest ->
    name (hit_object hit) = "ground dirt" ->
    let run := Kart.getGroundPosition io mockScene wheelBase offset
                 wheelIndex delta s in
    Kart.isOnDirt (Kart.wheel (snd run)) = (y (hit_point hit) <? dec 5 10)%js
    /\ Kart.position_y (Kart.wheel (snd run)) = (y (hit_point hit) + dec 3 10)%js
    /\ fst run = (y (hit_point hit) + dec 3 10)%js.
Proof.
  intros T N io mockScene wheelBase offset wheelIndex delta s hit rest
         Hquery Hname run.
  unfold run. rewrite getGroundPosition_outcome. cbv zeta.
  rewrite Hquery, Hname. cbn.
  repeat split.
Qed.

Lemma C4_witness :
  let low := Kart.getGroundPosition
               (Fixtures.mockReturnValue [Fixtures.mockHit 0.2 "ground dirt"])
               Fixtures.mockScene Fixtures.mockWheelBase None 0 0.016%float
               (Fixtures.initialFixture 0) in
  let high := Kart.getGroundPosition
                (Fixtures.mockReturnValue [Fixtures.mockHit 1.0 "ground dirt"])
                Fixtures.mockScene Fixtures.mockWheelBase None 0 0.016%float
                (Fixtures.initialFixture 0) in
  (Kart.isOnDirt (Kart.wheel (snd low)) = true
   /\ Kart.position_y (Kart.wheel (snd low)) = 0.5%float
   /\ fst low = 0.5%float)
  /\ (Kart.isOnDirt (Kart.wheel (snd high)) = false
      /\ Kart.position_y (Kart.wheel (snd high)) = 1.3%float
      /\ fst high = 1.3%float).
Proof.
  intros low high. split.
  - exact (@C4_ground_dirt_classification float _
             (Fixtures.mockReturnValue [Fixtures.mockHit 0.2 "ground dirt"])
             Fixtures.mockScene Fixtures.mockWheelBase None 0%nat 0.016%float
             (Fixtures.initialFixture 0)
             (Fixtures.mockHit 0.2 "ground dirt") [] eq_refl eq_refl).
  - exact (@C4_ground_dirt_classification float _
             (Fixtures.mockReturnValue [Fixtures.mockHit 1.0 "ground dirt"])
             Fixtures.mockScene Fixtures.mockWheelBase None 0%nat 0.016%float
             (Fixtures.initialFixture 0)
             (Fixtures.mockHit 1.0 "ground dirt") [] eq_refl eq_refl).
Defined.

(** C4, as stated, fails: the name "ground dirt road" contains
    "ground dirt" and the hit point's Y, 0.2, is below 0.5, yet the
    dirt flag is set to false, because the name is compared with [===]. *)
Lemma C4_counterexample :
  let hit := Fixtures.mockHit 0.2 "ground dirt road" in
  let run := Kart.getGroundPosition (Fixtures.mockReturnValue [hit])
               Fixtures.mockScene Fixtures.mockWheelBase None 0 0.016%float
               (Fixtures.initialFixture 0) in
  includes (name (hit_object hit)) "ground dirt" = true
  /\ (y (hit_point hit) <? dec 5 10)%js = true
  /\ Kart.isOnDirt (Kart.wheel (snd run)) = false.
Proof.
  intros hit run. repeat split; vm_compute; reflexivity.
Qed.

(** C9. When the wheel's downward ray finds nothing, the resolver sets
    the dirt flag to false, leaves the wheel's vertical position as it
    was and returns that position. *)
Theorem C9_no_ground_keeps_height :
  forall (T : Type) (N : JSNumber T) (io : IntersectObjects T)
         (mockScene : Object3D) (wheelBase : Kart.WheelBase T)
         (offset : option T) (wheelIndex : nat) (delta : T)
         (s : Kart.Fixture T),
    io (wheelRay (near (Kart.mockRaycaster s)) wheelBase)
       (children mockScene) true = [] ->
    let run := Kart.getGroundPosition io mockScene wheelBase offset
                 wheelIndex delta s in
    Kart.isOnDirt (Kart.wheel (snd run)) = false
    /\ Kart.position_y (Kart.wheel (snd run)) = Kart.position_y (Kart.wheel s)
    /\ fst run = Kart.position_y (Kart.wheel s).
Proof.
  intros T N io mockScene wheelBase offset wheelIndex delta s Hquery run.
  unfold run. rewrite getGroundPosition_outcome. cbv zeta.
  rewrite Hquery. cbn.
  repeat split.
Qed.

Lemma C9_witness :
  let before := Kart.mkFixture (Kart.mockRaycaster (Fixtures.initialFixture 0))
                               (Kart.mkWheel 5%float true) in
  let run := Kart.getGroundPosition (Fixtures.mockReturnValue [])
               Fixtures.mockScene Fixtures.mockWheelBase None 0 0.016%float
               before in
  Kart.isOnDirt (Kart.wheel (snd run)) = false
  /\ Kart.position_y (Kart.wheel (snd run)) = 5%float
  /\ fst run = 5%float.
Proof.
  intros before run.
  exact (@C9_no_ground_keeps_height float _ (Fixtures.mockReturnValue [])
           Fixtures.mockScene Fixtures.mockWheelBase None 0%nat 0.016%float
           before eq_refl).
Defined.

(* ------------------------------------------------------------------ *)
(** ** The two variants of the file, and the cases of the test suite *)

(** The ground-only variant does not report walls: with a wall ahead and
    no ground anywhere it reports a track edge, where the ground+wall
    variant reports the wall. *)
Example groundOnly_wall_ahead :
  let position := (mkVector3 0 0 0)%float in
  let velocity := (mkVector3 0 0 (-10))%float in
  option_map (@type float)
    (fst (GroundOnly.checkBoundaryCollision Fixtures.hitEverything position
            velocity Fixtures.wallOnly None Fixtures.initialState))
  = Some "track_edge"
  /\ option_map (@type float)
       (fst (Unified.checkBoundaryCollision Fixtures.hitEverything position
               velocity Fixtures.wallOnly None Fixtures.initialState))
     = Some "wall".
Proof. split; vm_compute; reflexivity. Qed.

(** With ground ahead the ground-only variant reports a clear path,
    where the ground+wall variant reports the track surface. *)
Example groundOnly_ground_ahead :
  let position := (mkVector3 0 0 0)%float in
  let velocity := (mkVector3 0 0 (-10))%float in
  fst (GroundOnly.checkBoundaryCollision Fixtures.hitEverything position
         velocity Fixtures.mockScene None Fixtures.initialState)
  = None
  /\ option_map (@type float)
       (fst (Unified.checkBoundaryCollision Fixtures.hitEverything position
               velocity Fixtures.mockScene None Fixtures.initialState))
     = Some "track_surface".
Proof. split; vm_compute; reflexivity. Qed.

(** The containment check consults the first boundary-named hit only: a
    second one within reach does not make up for a first one out of
    reach. *)
Example isPositionOnTrack_first_hit_decides :
  let overhead := mkIntersection 0.5%float (mkVector3 0 1.5 0)%float None
                    (Fixtures.mesh "ground bridge") in
  let below := mkIntersection 2.5%float (mkVector3 0 (-0.5) 0)%float None
                 (Fixtures.mesh "ground") in
  fst (Unified.isPositionOnTrack (Fixtures.mockReturnValue [overhead; below])
         (mkVector3 0 0 0)%float Fixtures.mockScene (Some 1%float)
         Fixtures.initialState) = false
  /\ fst (Unified.isPositionOnTrack (Fixtures.mockReturnValue [below])
            (mkVector3 0 0 0)%float Fixtures.mockScene (Some 1%float)
            Fixtures.initialState) = true.
Proof. split; vm_compute; reflexivity. Qed.

(** 'should detect ground and set wheel position correctly' *)
Example kart_test_ground :
  let run :=
    Kart.getGroundPosition
      (Fixtures.mockReturnValue [Fixtures.mockHit 2.0 "ground"])
      Fixtures.mockScene Fixtures.mockWheelBase None 0 0.016%float
      (Fixtures.initialFixture 0) in
  fst run = 2.3%float
  /\ Kart.wheel (snd run) = Kart.mkWheel 2.3%float false.
Proof. split; vm_compute; reflexivity. Qed.

(** 'should handle no intersection and maintain current wheel position' *)
Example kart_test_no_intersection :
  fst (Kart.getGroundPosition (Fixtures.mockReturnValue [])
         Fixtures.mockScene Fixtures.mockWheelBase None 0 0.016%float
         (Fixtures.initialFixture 5))
  = 5%float.
Proof. vm_compute. reflexivity. Qed.

(** Driving along negative [z] with the wall on the left: the forward
    probe and the probe turned right see a clear path, the probe turned
    left meets the wall, and the answer carries index 1. *)
Example multi_probe_turned_left_hits :
  let answer :=
    fst (Unified.checkMultiDirectionalCollision (H0 := Fixtures.trigTable)
           Fixtures.wallOnTheLeft (mkVector3 0 0 0)%float
           (mkVector3 0 0 (-10))%float Fixtures.mockScene
           Fixtures.initialState) in
  option_map (@directionIndex float) answer = Some 1
  /\ option_map (fun c => type (collision c)) answer = Some "wall"
  /\ option_map (fun c => normal (collision c)) answer
     = Some (mkVector3 1 0 0)%float.
Proof. repeat split; vm_compute; reflexivity. Qed.

(* ================================================================== *)
(** * Further properties of the code *)

(* ------------------------------------------------------------------ *)
(** ** Names and the boundary classifier *)

Lemma prefix_split (p s : string) :
  String.prefix p s = true -> exists rest, s = p ++ rest.
Proof.
  revert s. induction p as [|a p IH]; intros s Hpre.
  - exists s. reflexivity.
  - destruct s as [|b s]; [discriminate Hpre|].
    cbn in Hpre. destruct (Ascii.ascii_dec a b) as [Heq|Hne]; [|discriminate Hpre].
    destruct (IH s Hpre) as [rest Hrest].
    exists rest. cbn. now rewrite Heq, Hrest.
Qed.

Lemma prefix_append (p rest : string) : String.prefix p (p ++ rest) = true.
Proof.
  induction p as [|a p IH]; [destruct rest; reflexivity|].
  cbn. destruct (Ascii.ascii_dec a a) as [_|Hne]; [exact IH|congruence].
Qed.

Lemma includes_unfold (s sub : string) :
  includes s sub
  = (String.prefix sub s
     || match s with
        | EmptyString => false
        | String _ s' => includes s' sub
        end).
Proof. destruct s; reflexivity. Qed.

(** [includes] is substring containment: [sub] occurs somewhere in [s]. *)
Lemma includes_spec (s sub : string) :
  includes s sub = true <-> exists before after, s = before ++ sub ++ after.
Proof.
  split.
  - induction s as [|c s IH]; rewrite includes_unfold; intros Hinc.
    + rewrite orb_false_r in Hinc.
      destruct (prefix_split _ _ Hinc) as [rest Hrest].
      exists "", rest. exact Hrest.
    + apply orb_true_iff in Hinc. destruct Hinc as [Hpre|Hlater].
      * destruct (prefix_split _ _ Hpre) as [rest Hrest].
        exists "", rest. exact Hrest.
      * destruct (IH Hlater) as [before [after Heq]].
        exists (String c before), after. cbn. now rewrite Heq.
  - intros [before [after Heq]]. subst s.
    induction before as [|c before IH]; rewrite includes_unfold.
    + cbn [append]. now rewrite prefix_append.
    + cbn [append]. rewrite IH. apply orb_true_r.
Qed.

(** X1. A name passes the filter of the ground+wall variant exactly
    when "ground", "wall", "barrier" or "block" occurs somewhere in it;
    the truthiness test in front of the filter rejects nothing more. *)
Theorem isCollisionName_iff_keyword_occurs :
  forall n : string,
    Unified.isCollisionName n = true
    <-> exists keyword before after,
          In keyword boundaryKeywords /\ n = before ++ keyword ++ after.
Proof.
  intros n. rewrite isCollisionName_matches. unfold matchesBoundarySubstring.
  rewrite !orb_true_iff, !includes_spec. unfold boundaryKeywords.
  split.
  - intros [[[Hocc|Hocc]|Hocc]|Hocc]; destruct Hocc as [before [after Heq]].
    + exists "ground", before, after. cbn. auto.
    + exists "wall", before, after. cbn. auto.
    + exists "barrier", before, after. cbn. auto 6.
    + exists "block", before, after. cbn. auto 6.
  - intros [keyword [before [after [Hin Heq]]]].
    cbn in Hin. destruct Hin as [Hk|[Hk|[Hk|[Hk|[]]]]]; subst keyword.
    + left; left; left. now exists before, after.
    + left; left; right. now exists before, after.
    + left; right. now exists before, after.
    + right. now exists before, after.
Qed.

(* ------------------------------------------------------------------ *)
(** ** [getTrackBoundaries] *)

(** A [forEach] whose body pushes the image of the elements that pass a
    test collects the images of the filtered list, in order. *)
Lemma forEach_push {S A B} (test : A -> bool) (image : A -> B) (l : list A) :
  forall (index : nat) (acc : list B) (s : S),
    fst (forEach l index
           (fun a _ collected =>
              if test a then ret (collected ++ [image a])%list else ret collected)
           acc s)
    = (acc ++ map image (filter test l))%list.
Proof.
  induction l as [|a l IH]; intros index acc s.
  - cbn. now rewrite app_nil_r.
  - cbn [forEach filter]. unfold bind at 1.
    destruct (test a); unfold ret at 1; rewrite IH.
    + cbn [map]. now rewrite <- app_assoc.
    + reflexivity.
Qed.

Lemma getTrackBoundaries_unified (scene : Object3D) :
  Unified.getTrackBoundaries scene
  = map boundaryOf
        (filter (fun child => Unified.isCollisionName (name child))
                (children scene)).
Proof.
  unfold Unified.getTrackBoundaries.
  rewrite (forEach_push (fun child => Unified.isCollisionName (name child))
                        boundaryOf).
  reflexivity.
Qed.

Lemma getTrackBoundaries_groundOnly (scene : Object3D) :
  GroundOnly.getTrackBoundaries scene
  = map (fun child => mkBoundary child "ground" (name child))
        (filter (fun child => GroundOnly.isGroundName (name child))
                (children scene)).
Proof.
  unfold GroundOnly.getTrackBoundaries.
  rewrite (forEach_push (fun child => GroundOnly.isGroundName (name child))
                        (fun child => mkBoundary child "ground" (name child))).
  reflexivity.
Qed.

(** X2. [getTrackBoundaries] (ground+wall variant) lists the direct
    children of the scene that carry a boundary name, in scene order and
    nothing else; each entry repeats the child's name, and its type is
    'ground' when the name contains "ground" and 'wall' when it does
    not. *)
Theorem getTrackBoundaries_lists_boundary_children :
  forall scene : Object3D,
    map boundary_mesh (Unified.getTrackBoundaries scene)
    = filter (fun child => Unified.isCollisionName (name child)) (children scene)
    /\ (forall b, In b (Unified.getTrackBoundaries scene) ->
          boundary_name b = name (boundary_mesh b)
          /\ boundary_type b
             = if includes (name (boundary_mesh b)) "ground"
               then "ground" else "wall").
Proof.
  intros scene. rewrite getTrackBoundaries_unified. split.
  - rewrite map_map. cbn. apply map_id.
  - intros b Hin. apply in_map_iff in Hin.
    destruct Hin as [child [Hb _]]. subst b. split; reflexivity.
Qed.

Lemma isGroundName_split (n : string) :
  GroundOnly.isGroundName n
  = Unified.isCollisionName n && includes n "ground".
Proof.
  unfold GroundOnly.isGroundName, Unified.isCollisionName.
  destruct (str_truthy n); [|reflexivity]. cbn [andb].
  destruct (includes n "ground"); [reflexivity|].
  now rewrite andb_false_r.
Qed.

(** X3. The boundaries of the ground-only variant are the boundaries
    of the ground+wall variant that are typed 'ground', in the same
    order. *)
Theorem groundOnly_boundaries_are_the_ground_typed :
  forall scene : Object3D,
    GroundOnly.getTrackBoundaries scene
    = filter (fun b => String.eqb (boundary_type b) "ground")
             (Unified.getTrackBoundaries scene).
Proof.
  intros scene.
  rewrite getTrackBoundaries_groundOnly, getTrackBoundaries_unified.
  induction (children scene) as [|child rest IH]; [reflexivity|].
  cbn [filter]. rewrite isGroundName_split.
  destruct (Unified.isCollisionName (name child)); cbn [andb map filter].
  - unfold boundaryOf at 1. cbn [boundary_type].
    destruct (includes (name child) "ground") eqn:Hground; cbn.
    + unfold boundaryOf at 1. rewrite Hground, IH. reflexivity.
    + exact IH.
  - exact IH.
Qed.

(* ------------------------------------------------------------------ *)
(** ** The collision probe: the clear path, the two variants, the state *)

(** X4. The ground+wall probe answers [null] in two cases only: the
    velocity is slower than 0.1, or the forward ray meets no boundary
    while the edge ray (down from 1.5 ahead and 2 above) does meet one:
    the path is clear and the track goes on. *)
Theorem probe_null_iff_slow_or_clear_path :
  forall (T : Type) (N : JSNumber T) (io : IntersectObjects T)
         (position velocity : Vector3 T) (scene : Object3D)
         (lookAhead : option T) (s : ModuleState T),
    fst (Unified.checkBoundaryCollision io position velocity scene lookAhead s)
    = None
    <-> (length velocity <? dec 1 10)%js = true
        \/ (filter Unified.isCollisionHit
              (io (forwardRay (near (raycaster s)) position velocity
                              (default_arg lookAhead (ofZ 2)))
                  (children scene) true) = []
            /\ filter Unified.isCollisionHit
                 (io (edgeRay (near (raycaster s)) position velocity)
                     (children scene) true) <> []).
Proof.
  intros T N io position velocity scene lookAhead s.
  rewrite checkBoundaryCollision_outcome.
  destruct (length velocity <? dec 1 10)%js.
  - split; [now left|reflexivity].
  - destruct (filter _ _) as [|h rest].
    + destruct (filter _ _) as [|h' rest'].
      * split; [discriminate|].
        intros [Hslow|[_ Hsome]]; [discriminate Hslow|now contradiction Hsome].
      * split; [|reflexivity]. intros _. right. split; [reflexivity|discriminate].
    + split; [discriminate|].
      intros [Hslow|[Hnone _]]; [discriminate Hslow|discriminate Hnone].
Qed.

(** X5. The ground-only probe never reports a measured hit: whatever the
    scene and the query, it answers [null] or the synthesized
    'track_edge' record at distance 0.5. *)
Theorem groundOnly_probe_reports_edges_only :
  forall (T : Type) (N : JSNumber T) (io : IntersectObjects T)
         (position velocity : Vector3 T) (scene : Object3D)
         (lookAhead : option T) (s : ModuleState T),
    let answer :=
      fst (GroundOnly.checkBoundaryCollision io position velocity scene
             lookAhead s) in
    answer = None
    \/ answer
       = Some {| hit := true;
                 point := vadd position
                            (multiplyScalar (normalize velocity) (dec 5 10));
                 normal := negate (normalize velocity);
                 distance := dec 5 10;
                 type := "track_edge" |}.
Proof.
  intros T N io position velocity scene lookAhead s answer.
  unfold answer. rewrite groundOnly_outcome.
  destruct (length velocity <? dec 1 10)%js; [now left|].
  destruct (filter _ _) as [|h rest]; [|now left].
  destruct (filter _ _) as [|h' rest']; [now right|now left].
Qed.

Lemma filter_ground_nil {T} (l : list (Intersection T)) :
  filter Unified.isCollisionHit l = [] -> filter GroundOnly.isGroundHit l = [].
Proof.
  induction l as [|h l IH]; [reflexivity|].
  cbn [filter]. unfold GroundOnly.isGroundHit at 1, Unified.isCollisionHit at 1.
  rewrite isGroundName_split.
  destruct (Unified.isCollisionName (name (hit_object h))); [discriminate|].
  exact IH.
Qed.

Lemma boundaryRecord_not_edge {T} `{JSNumber T} (velocity : Vector3 T)
    (h : Intersection T) :
  type (boundaryRecord velocity h) <> "track_edge".
Proof.
  unfold boundaryRecord. cbn [type].
  destruct (includes _ _); discriminate.
Qed.

(** X6. Whenever the ground+wall probe reports a track edge, the
    ground-only probe reports the same record for the same call. *)
Theorem unified_edge_is_groundOnly_edge :
  forall (T : Type) (N : JSNumber T) (io : IntersectObjects T)
         (position velocity : Vector3 T) (scene : Object3D)
         (lookAhead : option T) (s : ModuleState T) (r : HitRecord T),
    fst (Unified.checkBoundaryCollision io position velocity scene lookAhead s)
    = Some r ->
    type r = "track_edge" ->
    fst (GroundOnly.checkBoundaryCollision io position velocity scene lookAhead s)
    = Some r.
Proof.
  intros T N io position velocity scene lookAhead s r Hunified Hedge.
  rewrite checkBoundaryCollision_outcome in Hunified.
  rewrite groundOnly_outcome.
  destruct (length velocity <? dec 1 10)%js; [discriminate Hunified|].
  destruct (filter Unified.isCollisionHit _) as [|h rest] eqn:Hforward.
  - rewrite (filter_ground_nil _ Hforward).
    destruct (filter Unified.isCollisionHit
                (io (edgeRay (near (raycaster s)) position velocity)
                    (children scene) true)) as [|h' rest'] eqn:Hbelow;
      [|discriminate Hunified].
    rewrite (filter_ground_nil _ Hbelow). exact Hunified.
  - injection Hunified as Hr. subst r.
    now apply boundaryRecord_not_edge in Hedge.
Qed.

Lemma unified_edge_is_groundOnly_edge_witness :
  exists r,
    fst (GroundOnly.checkBoundaryCollision Fixtures.hitEverything
           (mkVector3 0 0 0)%float (mkVector3 0 0 (-10))%float
           Fixtures.sceneryOnly None Fixtures.initialState) = Some r
    /\ distance r = 0.5%float.
Proof.
  eexists. split.
  - apply (@unified_edge_is_groundOnly_edge float _ Fixtures.hitEverything
             (mkVector3 0 0 0)%float (mkVector3 0 0 (-10))%float
             Fixtures.sceneryOnly None Fixtures.initialState).
    + vm_compute. reflexivity.
    + vm_compute. reflexivity.
  - vm_compute. reflexivity.
Defined.

(** X7. A probe that is not stopped by the speed guard leaves its traces
    in the module state: [direction] holds the normalized velocity,
    [origin] the position lifted by 0.5, and the shared raycaster is
    left on the last ray cast: the forward ray when it met a boundary,
    the downward edge ray with [far = 5] when it did not. *)
Theorem probe_leaves_raycaster_on_last_ray :
  forall (T : Type) (N : JSNumber T) (io : IntersectObjects T)
         (position velocity : Vector3 T) (scene : Object3D)
         (lookAhead : option T) (s : ModuleState T),
    (length velocity <? dec 1 10)%js = false ->
    let forward := forwardRay (near (raycaster s)) position velocity
                              (default_arg lookAhead (ofZ 2)) in
    let after := snd (Unified.checkBoundaryCollision io position velocity scene
                        lookAhead s) in
    direction after = normalize velocity
    /\ origin after = addY position (dec 5 10)
    /\ raycaster after
       = match filter Unified.isCollisionHit (io forward (children scene) true) with
         | _ :: _ => forward
         | [] => edgeRay (near (raycaster s)) position velocity
         end.
Proof.
  intros T N io position velocity scene lookAhead s Hspeed forward after.
  unfold after, forward, Unified.checkBoundaryCollision, forwardRay, edgeRay.
  rewrite Hspeed. run_state.
  unfold Raycaster_set, set_far, set_firstHitOnly; cbn.
  destruct (filter _ _) as [|h rest]; cbn.
  - destruct (filter _ _) as [|h' rest']; cbn; repeat split.
  - repeat split.
Qed.

Lemma probe_leaves_raycaster_on_last_ray_witness :
  let after := snd (Unified.checkBoundaryCollision Fixtures.hitEverything
                      (mkVector3 0 0 0)%float (mkVector3 0 0 (-10))%float
                      Fixtures.sceneryOnly None Fixtures.initialState) in
  far (raycaster after) = 5%float
  /\ ray_direction (raycaster after) = (mkVector3 0 (-1) 0)%float
  /\ direction after = (mkVector3 0 0 (-1))%float.
Proof.
  intros after.
  destruct (@probe_leaves_raycaster_on_last_ray float float_JSNumber
              Fixtures.hitEverything
              (mkVector3 0 0 0)%float (mkVector3 0 0 (-10))%float
              Fixtures.sceneryOnly None Fixtures.initialState
              ltac:(vm_compute; reflexivity)) as [Hdir [_ Hray]].
  fold after in Hdir, Hray.
  rewrite Hdir, Hray. vm_compute. repeat split.
Defined.

Lemma isPositionOnTrack_near {T} `{JSNumber T} (io : IntersectObjects T)
    position scene maxDistance s :
  near (raycaster (snd (Unified.isPositionOnTrack io position scene maxDistance s)))
  = near (raycaster s).
Proof.
  unfold Unified.isPositionOnTrack. run_state.
  unfold Raycaster_set, set_far, set_firstHitOnly; cbn.
  destruct (filter _ _) as [|h rest]; reflexivity.
Qed.

(** X8. The functions of the module share one raycaster and do not
    disturb each other: the answer of the containment check is the same
    after a probe as before it, the answer of a probe is the same after
    a containment check as before it, and a probe answers the same after
    any other probe. *)
Theorem shared_raycaster_does_not_leak :
  forall (T : Type) (N : JSNumber T) (io : IntersectObjects T)
         (position : Vector3 T) (scene : Object3D) (maxDistance : option T)
         (position' velocity' : Vector3 T) (scene' : Object3D)
         (lookAhead' : option T)
         (position'' velocity'' : Vector3 T) (scene'' : Object3D)
         (lookAhead'' : option T) (s : ModuleState T),
    fst (Unified.isPositionOnTrack io position scene maxDistance
           (snd (Unified.checkBoundaryCollision io position' velocity' scene'
                   lookAhead' s)))
    = fst (Unified.isPositionOnTrack io position scene maxDistance s)
    /\ fst (Unified.checkBoundaryCollision io position' velocity' scene' lookAhead'
              (snd (Unified.isPositionOnTrack io position scene maxDistance s)))
       = fst (Unified.checkBoundaryCollision io position' velocity' scene'
                lookAhead' s)
    /\ fst (Unified.checkBoundaryCollision io position' velocity' scene' lookAhead'
              (snd (Unified.checkBoundaryCollision io position'' velocity''
                      scene'' lookAhead'' s)))
       = fst (Unified.checkBoundaryCollision io position' velocity' scene'
                lookAhead' s).
Proof.
  intros. repeat split.
  - rewrite !isPositionOnTrack_outcome, checkBoundaryCollision_near. reflexivity.
  - apply checkBoundaryCollision_state_independent, isPositionOnTrack_near.
  - apply checkBoundaryCollision_state_independent, checkBoundaryCollision_near.
Qed.

(* ------------------------------------------------------------------ *)
(** ** The containment check with a negative bound *)

Lemma R_leb_false (a b : R) : (b < a)%R -> R_leb a b = false.
Proof.
  intros Hlt. unfold R_leb. destruct (Rle_dec a b); [lra|reflexivity].
Qed.

(** X9. On the reals, a negative [maxDistance] makes the containment
    check answer false whatever the scene and the query report: no
    vertical distance is below it. *)
Theorem negative_maxDistance_is_never_on_track :
  forall (io : IntersectObjects R) (position : Vector3 R) (scene : Object3D)
         (maxDistance : R) (s : ModuleState R),
    (maxDistance < 0)%R ->
    fst (Unified.isPositionOnTrack io position scene (Some maxDistance) s) = false
    /\ fst (GroundOnly.isPositionOnTrack io position scene (Some maxDistance) s)
       = false.
Proof.
  intros io position scene maxDistance s Hneg.
  rewrite isPositionOnTrack_outcome, groundOnly_isPositionOnTrack_outcome.
  cbn [default_arg leb abs sub R_JSNumber].
  split; destruct (filter _ _) as [|h rest]; try reflexivity;
    apply R_leb_false;
    pose proof (Rabs_pos (y position - y (hit_point h))); lra.
Qed.

Lemma negative_maxDistance_is_never_on_track_witness :
  let ground := mkIntersection 2%R (mkVector3 0 0 0)%R None
                  (Fixtures.mesh "ground") in
  fst (Unified.isPositionOnTrack (Fixtures.mockReturnValue [ground])
         (mkVector3 0 0 0)%R Fixtures.mockScene (Some (-1)%R) realState)
  = false.
Proof.
  intros ground.
  apply (@negative_maxDistance_is_never_on_track
           (Fixtures.mockReturnValue [ground]) (mkVector3 0 0 0)%R
           Fixtures.mockScene (-1)%R realState).
  lra.
Defined.

(* ------------------------------------------------------------------ *)
(** ** The multi-directional prober, further *)

(** A [forEach] keeps what its body keeps, the index running along. *)
Lemma forEach_invariant {S A B} (I : nat -> B -> Prop)
    (body : A -> nat -> B -> State S B) :
  (forall a index acc s, I index acc -> I (Datatypes.S index) (fst (body a index acc s))) ->
  forall (l : list A) (index : nat) (acc : B) (s : S),
    I index acc ->
    I (index + List.length l) (fst (forEach l index body acc s)).
Proof.
  intros Hbody. induction l as [|a l IH]; intros index acc s Hacc.
  - cbn. now rewrite Nat.add_0_r.
  - cbn [forEach List.length]. unfold bind.
    pose proof (Hbody a index acc s Hacc) as Hstep.
    destruct (body a index acc s) as [acc' s'].
    rewrite <- plus_n_Sm. apply (IH (Datatypes.S index)). exact Hstep.
Qed.

(** X16. The multi-directional prober of the ground-only variant, too,
    reports edges only: an answer that is not [null] is a 'track_edge'
    record at distance 0.5, with a direction index below 3. *)
Theorem groundOnly_multi_probe_reports_edges_only :
  forall (T : Type) (N : JSNumber T) (Tr : JSTrig T) (io : IntersectObjects T)
         (position velocity : Vector3 T) (scene : Object3D)
         (s : ModuleState T) (d : DirectedHit T),
    fst (GroundOnly.checkMultiDirectionalCollision io position velocity scene s)
    = Some d ->
    type (collision d) = "track_edge"
    /\ distance (collision d) = dec 5 10
    /\ directionIndex d < 3.
Proof.
  intros T N Tr io position velocity scene s d Hanswer.
  unfold GroundOnly.checkMultiDirectionalCollision in Hanswer.
  unfold bind at 1 in Hanswer.
  set (edgesBelow := fun (bound : nat) (found : list (DirectedHit T)) =>
         Forall (fun e => type (collision e) = "track_edge"
                          /\ distance (collision e) = dec 5 10
                          /\ directionIndex e < bound) found).
  pose proof (@forEach_invariant (ModuleState T) _ _ edgesBelow
                (fun dir index collisions =>
                   collision <- GroundOnly.checkBoundaryCollision io position
                                  (multiplyScalar dir (length velocity)) scene None ;;
                   match collision with
                   | Some c => ret (collisions ++ [mkDirectedHit c index])%list
                   | None => ret collisions
                   end)) as Hloop.
  assert (Hbody : forall a index acc s0,
             edgesBelow index acc ->
             edgesBelow (S index)
               (fst ((collision <- GroundOnly.checkBoundaryCollision io position
                                     (multiplyScalar a (length velocity)) scene None ;;
                      match collision with
                      | Some c => ret (acc ++ [mkDirectedHit c index])%list
                      | None => ret acc
                      end) s0))).
  { intros a index acc s0 Hacc.
    assert (Hwiden : edgesBelow (S index) acc).
    { unfold edgesBelow in *. eapply Forall_impl; [|exact Hacc].
      cbn. intros e [Ht [Hd Hi]]. repeat split; auto. }
    unfold bind.
    pose proof (groundOnly_outcome io position
                  (multiplyScalar a (length velocity)) scene None s0) as Hout.
    destruct (GroundOnly.checkBoundaryCollision io position
                (multiplyScalar a (length velocity)) scene None s0) as [r s1].
    cbn [fst] in Hout.
    destruct r as [c|]; unfold ret; cbn [fst]; [|exact Hwiden].
    unfold edgesBelow. apply Forall_app. split; [exact Hwiden|].
    constructor; [|constructor]. cbn [collision directionIndex].
    destruct (length _ <? dec 1 10)%js; [discriminate Hout|].
    destruct (filter _ _) as [|h rest]; [|discriminate Hout].
    destruct (filter _ _) as [|h' rest']; [|discriminate Hout].
    injection Hout as Hc. subst c. repeat split. auto. }
  specialize (Hloop Hbody (GroundOnly.directions velocity) 0 [] s (Forall_nil _)).
  destruct (forEach (GroundOnly.directions velocity) 0 _ [] s) as [collisions s'].
  cbn [fst ret] in Hloop, Hanswer.
  destruct collisions as [|e rest]; [discriminate Hanswer|].
  injection Hanswer as He. subst e.
  unfold edgesBelow in Hloop. apply Forall_inv in Hloop.
  exact Hloop.
Qed.

Lemma groundOnly_multi_probe_reports_edges_only_witness :
  exists d,
    fst (GroundOnly.checkMultiDirectionalCollision (H0 := Fixtures.trigTable)
           Fixtures.hitEverything (mkVector3 0 0 0)%float
           (mkVector3 0 0 (-10))%float Fixtures.wallOnly Fixtures.initialState)
    = Some d
    /\ type (collision d) = "track_edge"
    /\ distance (collision d) = 0.5%float
    /\ directionIndex d < 3.
Proof.
  eexists. split; [vm_compute; reflexivity|].
  apply (@groundOnly_multi_probe_reports_edges_only float float_JSNumber
           Fixtures.trigTable Fixtures.hitEverything (mkVector3 0 0 0)%float
           (mkVector3 0 0 (-10))%float Fixtures.wallOnly Fixtures.initialState).
  vm_compute. reflexivity.
Defined.

(* ------------------------------------------------------------------ *)
(** ** [getTrackBoundaries] and the probe *)

Lemma filter_nil_none {A} (f : A -> bool) (l : list A) :
  filter f l = [] -> forall a, In a l -> f a = false.
Proof.
  induction l as [|b l IH]; intros Hnil a Hin; [destruct Hin|].
  cbn in Hnil. destruct (f b) eqn:Hb; [discriminate Hnil|].
  destruct Hin as [Heq|Hin]; [now subst a|now apply IH].
Qed.

Lemma descendants_flat (objs : list Object3D) :
  (forall o, In o objs -> children o = []) -> descendants objs = objs.
Proof.
  induction objs as [|o objs IH]; intros Hflat; [reflexivity|].
  unfold descendants in *. cbn [flat_map].
  rewrite IH by (intros o' Ho'; apply Hflat; now right).
  pose proof (Hflat o (or_introl eq_refl)) as Ho.
  destruct o as [n cs]. cbn in Ho. subst cs. reflexivity.
Qed.

Lemma unlisted_flat_scene_has_no_boundary (scene : Object3D) :
  flatScene scene ->
  Unified.getTrackBoundaries scene = [] ->
  noBoundaryObjects scene.
Proof.
  intros Hflat Hlisted o Hin. rewrite (descendants_flat _ Hflat) in Hin.
  rewrite getTrackBoundaries_unified in Hlisted.
  apply map_eq_nil in Hlisted.
  rewrite <- isCollisionName_matches.
  exact (filter_nil_none _ _ Hlisted o Hin).
Qed.

(** X17. In a flat scene, what [getTrackBoundaries] lists decides what
    a probe can meet: when it lists nothing, every velocity that is not
    slower than 0.1 gets the 'track_edge' record. (The query is assumed
    to report hits on objects of the scene only.) *)
Theorem no_listed_boundary_means_track_edge :
  forall (T : Type) (N : JSNumber T) (io : IntersectObjects T)
         (position velocity : Vector3 T) (scene : Object3D)
         (lookAhead : option T) (s : ModuleState T),
    flatScene scene ->
    hitsOnSceneObjects io scene ->
    Unified.getTrackBoundaries scene = [] ->
    (length velocity <? dec 1 10)%js = false ->
    fst (Unified.checkBoundaryCollision io position velocity scene lookAhead s)
    = Some {| hit := true;
              point := vadd position
                         (multiplyScalar (normalize velocity) (dec 5 10));
              normal := negate (normalize velocity);
              distance := dec 5 10;
              type := "track_edge" |}.
Proof.
  intros T N io position velocity scene lookAhead s Hflat Hon Hlisted Hspeed.
  pose proof (unlisted_flat_scene_has_no_boundary Hflat Hlisted) as Hnone.
  rewrite checkBoundaryCollision_outcome, Hspeed.
  rewrite !no_boundary_hits by assumption.
  reflexivity.
Qed.

Lemma no_listed_boundary_means_track_edge_witness :
  let scene := mkObject3D "" [Fixtures.mesh "sky"; Fixtures.mesh "not collision"] in
  fst (Unified.checkBoundaryCollision Fixtures.hitEverything
         (mkVector3 0 0 0)%float (mkVector3 0 0 (-10))%float scene None
         Fixtures.initialState)
  = Some {| hit := true;
            point := (mkVector3 0 0 (-0.5))%float;
            normal := (mkVector3 (-0) (-0) 1)%float;
            distance := 0.5%float;
            type := "track_edge" |}.
Proof.
  intros scene.
  pose proof (@no_listed_boundary_means_track_edge float float_JSNumber
                Fixtures.hitEverything (mkVector3 0 0 0)%float
                (mkVector3 0 0 (-10))%float scene None Fixtures.initialState)
    as Hedge.
  assert (Hflat : flatScene scene).
  { intros child [Hc|[Hc|[]]]; subst child; reflexivity. }
  specialize (Hedge Hflat (hitEverything_on_scene scene)
                ltac:(vm_compute; reflexivity) ltac:(vm_compute; reflexivity)).
  rewrite Hedge. vm_compute. reflexivity.
Defined.

(** X21. In a flat scene a position can only be on the track when
    [getTrackBoundaries] lists something: if the containment check
    answers true, the list is not empty. (The query is assumed to report
    hits on objects of the scene only.) *)
Theorem on_track_needs_a_listed_boundary :
  forall (T : Type) (N : JSNumber T) (io : IntersectObjects T)
         (position : Vector3 T) (scene : Object3D)
         (maxDistance : option T) (s : ModuleState T),
    flatScene scene ->
    hitsOnSceneObjects io scene ->
    fst (Unified.isPositionOnTrack io position scene maxDistance s) = true ->
    Unified.getTrackBoundaries scene <> [].
Proof.
  intros T N io position scene maxDistance s Hflat Hon Htrue Hlisted.
  pose proof (unlisted_flat_scene_has_no_boundary Hflat Hlisted) as Hnone.
  rewrite isPositionOnTrack_outcome in Htrue.
  rewrite no_boundary_hits in Htrue by assumption.
  discriminate Htrue.
Qed.

Lemma on_track_needs_a_listed_boundary_witness :
  Unified.getTrackBoundaries Fixtures.mockScene <> [].
Proof.
  apply (@on_track_needs_a_listed_boundary float float_JSNumber
           Fixtures.hitEverything (mkVector3 0 0 0)%float Fixtures.mockScene
           None Fixtures.initialState).
  - intros child Hin. cbn in Hin.
    repeat (destruct Hin as [Hc|Hin]; [subst child; reflexivity|]).
    destruct Hin.
  - apply hitEverything_on_scene.
  - vm_compute. reflexivity.
Defined.

(** Without flatness the list says less than the probe sees: a wall
    below a group is not listed, yet the probe meets it. *)
Example nested_wall_is_probed_but_not_listed :
  let scene := mkObject3D "" [mkObject3D "group" [Fixtures.mesh "wall"]] in
  Unified.getTrackBoundaries scene = []
  /\ option_map (@type float)
       (fst (Unified.checkBoundaryCollision Fixtures.hitEverything
               (mkVector3 0 0 0)%float (mkVector3 0 0 (-10))%float scene None
               Fixtures.initialState))
     = Some "wall".
Proof. split; vm_compute; reflexivity. Qed.

(* ------------------------------------------------------------------ *)
(** ** The ground contact resolver, further *)

(** X18. Resolving a wheel twice in a row changes nothing the second
    time: the same value is returned and the same state is left. *)
Theorem resolver_is_idempotent :
  forall (T : Type) (N : JSNumber T) (io : IntersectObjects T)
         (mockScene : Object3D) (wheelBase : Kart.WheelBase T)
         (offset : option T) (wheelIndex : nat) (delta : T)
         (s : Kart.Fixture T),
    let once := Kart.getGroundPosition io mockScene wheelBase offset
                  wheelIndex delta s in
    Kart.getGroundPosition io mockScene wheelBase offset wheelIndex delta
      (snd once)
    = once.
Proof.
  intros T N io mockScene wheelBase offset wheelIndex delta s once.
  unfold once. rewrite !getGroundPosition_outcome. cbv zeta.
  destruct (io (wheelRay (near (Kart.mockRaycaster s)) wheelBase)
               (children mockScene) true) as [|hit rest] eqn:Hquery;
    cbn [snd Kart.mockRaycaster Kart.wheel Kart.position_y wheelRay near];
    fold (wheelRay (near (Kart.mockRaycaster s)) wheelBase);
    rewrite Hquery; reflexivity.
Qed.

(** X19. Whatever the ray meets, the value the resolver returns is the
    wheel's vertical position after the call, and the raycaster is left
    with [far = 3] and [firstHitOnly] set. *)
Theorem resolver_returns_the_wheel_height :
  forall (T : Type) (N : JSNumber T) (io : IntersectObjects T)
         (mockScene : Object3D) (wheelBase : Kart.WheelBase T)
         (offset : option T) (wheelIndex : nat) (delta : T)
         (s : Kart.Fixture T),
    let run := Kart.getGroundPosition io mockScene wheelBase offset
                 wheelIndex delta s in
    fst run = Kart.position_y (Kart.wheel (snd run))
    /\ far (Kart.mockRaycaster (snd run)) = ofZ 3
    /\ firstHitOnly (Kart.mockRaycaster (snd run)) = true.
Proof.
  intros T N io mockScene wheelBase offset wheelIndex delta s run.
  unfold run. rewrite getGroundPosition_outcome. cbv zeta.
  destruct (io _ _ _) as [|hit rest]; cbn; repeat split.
Qed.

(** X20. After the resolver has run, the wheel is on dirt exactly when
    the ray met something, the first thing met is named "ground dirt"
    and its hit point lies below 0.5; the flag the wheel had before
    plays no part. *)
Theorem resolver_dirt_flag_iff :
  forall (T : Type) (N : JSNumber T) (io : IntersectObjects T)
         (mockScene : Object3D) (wheelBase : Kart.WheelBase T)
         (offset : option T) (wheelIndex : nat) (delta : T)
         (s : Kart.Fixture T),
    Kart.isOnDirt
      (Kart.wheel (snd (Kart.getGroundPosition io mockScene wheelBase offset
                          wheelIndex delta s))) = true
    <-> exists hit rest,
          io (wheelRay (near (Kart.mockRaycaster s)) wheelBase)
             (children mockScene) true = hit :: rest
          /\ name (hit_object hit) = "ground dirt"
          /\ (y (hit_point hit) <? dec 5 10)%js = true.
Proof.
  intros T N io mockScene wheelBase offset wheelIndex delta s.
  rewrite getGroundPosition_outcome. cbv zeta.
  destruct (io _ _ _) as [|hit rest]; cbn [snd Kart.wheel Kart.isOnDirt].
  - split; [discriminate|]. intros [h [r [Habs _]]]. discriminate Habs.
  - rewrite andb_true_iff, String.eqb_eq. split.
    + intros [Hname Hlow]. now exists hit, rest.
    + intros [h [r [Heq [Hname Hlow]]]]. injection Heq as Hh _. subst h. now split.
Qed.
